(* ===== verification/_CoqProject ===== *)
-Q . S2P
Prelude.v
Py.v
Base.v
Integration.v
Client.v
Connection.v
Schema.v
Lifecycle.v
System.v
Concurrency.v
