(* ===== verification/Prelude.v ===== *)
(** * A verification development of flask-discord's connection model

    The program is the [UserConnection] model of flask-discord
    ([src/flask_discord/models/connections.py]).  It turns the JSON
    payload of Discord's [GET /users/@me/connections] route into objects
    and, as a side effect of fetching, refreshes a process-wide cache of
    [User] objects held by the Flask-Discord client.

    ** The program's parts and how they interact

    - [UserConnection.__init__] reads the payload mapping: [payload["id"]]
      (may raise), then [payload.get(...)] for every optional field, and
      builds one [Integration] per entry of
      [payload.get("integrations", list())].
    - [UserConnection.is_visible] is [bool(self.visibility)].
    - [UserConnection.fetch_from_api(cache=True)] calls the inherited
      [DiscordModelsBase.fetch_from_api] (one request to the class's
      [ROUTE], one model per element since [MANY = True]), then, when
      [cache] holds, looks up [users_cache.get(user_id)] and assigns its
      [connections] attribute inside [try ... except AttributeError: pass].
    - The base class, [Integration], [User] and the client object are code
      of the repository outside [src/]; they are modelled from the spec
      (section 2, 3, 6) and marked so in the manifest.

    ** Files, modules and correspondence with the code

    - [Prelude] (this file): the error monad [E + A] with [let?]
      ([sbind]), the state-and-exception monad [StE S E A := S -> S * (E
      + A)] with [let!] ([stbind]; Python statements run left to right and
      state changes made before a raise are kept), [try_except] for
      [try/except], [mapM] for list comprehensions whose body may raise,
      the lifting [res_rel] of a relation to results, the hint database
      [py] and the tactic [step_run].
    - [Py]: the Python values [json.loads] produces ([json], with the
      induction principle [json_ind_all] and decidable equality), Python
      exceptions ([exn]) and the builtins the code calls on them:
      subscription [v[k]] ([py_getitem]), [dict.get] ([py_get],
      [py_get_default]), iteration ([py_iter]), truthiness [bool(v)]
      ([py_bool]); the equivalence [json_equiv] (equal up to the order of
      dictionary entries) with its [Equivalence] and [Proper] instances.
    - [Base]: [DiscordModelsBase] (spec-modelled): the typeclass
      interface [DiscordModel] (constructor from a payload, [_payload]
      kept), the class attributes [ROUTE] and [MANY] ([ApiModel]), the
      session interface [Session] (the request primitive), and in
      [Module DiscordModelsBase] the generic [fetch_from_api].
    - [Integration]: the nested [Integration] model (spec-modelled), an
      instance of [DiscordModel].
    - [Client]: the Flask-Discord client (spec-modelled): a heap of
      Python objects (so that aliasing of cached [User] objects is
      explicit), [users_cache] from user ids to references, the current
      [user_id], the request oracle [respond] and the log [requests];
      [users_cache_get] and [setattr_connections] translate lines 83 and
      85 of [connections.py]; the invariant [client_wf], the readers' view
      [users_view] and [cache_injective].
    - [Connection], [Module UserConnection]: the class itself: the record
      of its attributes, [__init__] and [__get_integrations] (lines
      41-55), [is_visible] (57-60), [MANY]/[ROUTE] (38-39),
      [refresh_users_cache] (the [if cache:] block, 82-87) and
      [fetch_from_api] (62-89).  [Module Construction] states and proves
      the construction theorems, [Module Fetch] the contract of the fetch
      ([fetch_contract]) and the fetch theorems, [Module Witnesses]
      applies the theorems to concrete payloads and clients.
    - [Lifecycle], [Module Lifecycle]: the fetch as one labelled step
      among environment steps ([step], [steps] with their traces); the
      environment (the rest of the library: logins, [User]s entering the
      cache, the server's answers changing) is a relation the theorems
      only assume a rely condition of.
    - [Schema], [Module Schema]: the documented JSON object of a
      connection ([encode]) and the type of a constructed connection
      ([conn_typed]).
    - [System], [Module System]: the other operations of the library on
      the client, spec-modelled: [Lifecycle.login], [logout], [cache_user]
      (a new [User] object enters the cache under its id, at a fresh heap
      location) and [set_answer] (the server's answers change); [sys_step]
      and [sys_run] execute any sequence of them and of fetches; the
      abstract system of the spec ([abs_state], [abs_step], [abs_run])
      keeps the cache as a map from ids to [User] values, without heap.
    - [Concurrency], [Module Threads]: [fetch_from_api] split at its
      statements ([stmt_request] for line 80 with the test of line 82,
      [stmt_lookup] for line 83, [stmt_assign] for lines 84-87 and the
      return of line 89), dispatched by [thread_step] on a program
      counter [pc]; [run] executes a schedule of thread steps and
      environment actions over the shared client.

    ** What the theorems show

    - construction ([Connection.Construction], C1-C8): the functional
      behaviour of [__init__] on every branch (success, [KeyError('id')]
      on a missing id, the subscript's [TypeError] on a non-dict payload,
      [TypeError] on a [null] [integrations]), the defaults, order and
      length of the integrations, a decidable characterisation of the
      payloads that construct; [is_visible] is truthiness, hence
      non-zero integers.  Two [Example]s check the spec's scenario and
      that a string ["0"] is visible (a finding); they are tests, not
      properties;
    - fetch ([Connection.Fetch], C9-C20): refinement of the abstract
      contract on [users_view] under an injective cache; request errors
      propagated unmodified and atomically, construction errors atomic
      and the first failing element's; the best-effort refresh (hit,
      miss, object without the attribute); the frame of [cache=False];
      the returned value a function of the server's answer alone, up to
      the order of dict entries (independent of [cache] and of the users
      cache); response order kept; aliasing of one object under two ids;
      the iteration of a dict response over its keys;
    - sequences ([Lifecycle], C21-C22): along any sequence of fetches and
      environment steps that issue no request, the request log holds
      exactly one request to the route per fetch, in order; a second
      fetch with the same answer changes no object;
    - schema ([Schema], C24-C25): every constructed connection is well
      typed; constructing from the documented encoding of a connection
      gives back every attribute (round trip);
    - the whole client ([System], C26-C27, C29): from a client whose
      cached references are allocated and unshared ([sys_inv], which the
      empty client satisfies and every operation keeps), every run of
      fetches, logins, logouts, cached [User]s and answer changes is
      simulated by the abstract system (refinement, by induction on the
      run); the cache is never evicted and grows by at most one entry per
      cached [User]; a [User] cached and logged in receives the next
      fetched list;
    - interleavings ([Concurrency], C23, C28): for any schedule whose
      environment leaves the objects alone, every object ends as the last
      assignment to it in the schedule's log ([writes]) made it; a [User]
      re-cached between line 83 and line 85 misses the update, which goes
      to the object the lookup returned.  The lemma [thread_alone_is_fetch]
      checks that the statement-level split, run alone, is the atomic
      fetch, and the [Example] [stale_answer_wins] exhibits a schedule in
      which the cache ends with the older of two answers (a finding).

    ** Bounds, fuel and what is not modelled

    Every definition is structurally recursive: no fuel is needed; a
    thread of the interleaved fetch runs three straight-line statements,
    so its termination is immediate and is not stated as a property.  Python
    integers are unbounded and are modelled by [Z]; no width applies.
    JSON numbers are integers (Discord's schema has no floats for this
    route); floats are not modelled.  Not modelled: the Flask
    application and request context, OAuth2 token exchange, the HTTP
    transport and JSON decoding (the request primitive is an oracle of
    the client state), [to_json] and the metaclass check on [ROUTE] of
    the base class, the [User] class beyond its [connections] slot.
    These are either outside the repository's logic (Flask, the HTTP
    library, the JSON decoder) or code outside [src/] that the spec does
    not describe ([to_json], the [User] and [Integration] attributes,
    the OAuth2 flow that sets [user_id]): a model of them would be
    invented, not translated.  The [Session] interface has one instance,
    the client; its request is an oracle of the state, so no laws
    beyond the client's own lemmas ([base_fetch_run], the frame lemmas)
    are stated over it: any further law would restate them.

    Every line of [connections.py] that does something is translated:
    what is left are the imports (lines 1-6), which the [Require]s of
    [Base] and [Integration] and the [client] state stand for.
*)

From stdpp Require Import base list option sets.

(** * Result (error) monad *)

Declare Scope py_scope.
Delimit Scope py_scope with py.

Definition sbind {E A B} (m : E + A) (k : A -> E + B) : E + B :=
  match m with inl e => inl e | inr a => k a end.

Notation "'let?' x := m 'in' k" := (sbind m (fun x => k))
  (at level 10, x name, m at level 100, k at level 200) : py_scope.

Open Scope py_scope.

(** A list comprehension [[f(x) for x in l]] whose body may raise: the
    first exception, in list order, aborts the whole comprehension. *)
Fixpoint mapM {E A B} (f : A -> E + B) (l : list A) : E + list B :=
  match l with
  | [] => inr []
  | x :: l' => let? y := f x in let? ys := mapM f l' in inr (y :: ys)
  end.

(** Lifting of a relation on values to results: equal exceptions, or
    related values. *)
Inductive res_rel {E A B} (R : A -> B -> Prop) : E + A -> E + B -> Prop :=
| res_rel_inl e : res_rel R (inl e) (inl e)
| res_rel_inr a b : R a b -> res_rel R (inr a) (inr b).

(** * State-and-exception monad *)

Definition StE (S E A : Type) := S -> S * (E + A).

Definition sret {S E A} (a : A) : StE S E A := fun s => (s, inr a).
Definition sraise {S E A} (e : E) : StE S E A := fun s => (s, inl e).
Definition slift {S E A} (r : E + A) : StE S E A := fun s => (s, r).

Definition stbind {S E A B} (m : StE S E A) (k : A -> StE S E B) : StE S E B :=
  fun s => match m s with
           | (s', inl e) => (s', inl e)
           | (s', inr a) => k a s'
           end.

Notation "'let!' x := m 'in' k" := (stbind m (fun x => k))
  (at level 10, x name, m at level 100, k at level 200) : py_scope.

(** [try: m except <catches>: handler]: an exception the predicate
    accepts is handled in the state reached when it was raised; any other
    exception propagates. *)
Definition try_except {S E A} (catches : E -> bool) (m : StE S E A)
    (handler : E -> StE S E A) : StE S E A :=
  fun s => match m s with
           | (s', inl e) => if catches e then handler e s' else (s', inl e)
           | r => r
           end.

(** * Generic lemmas *)

Create HintDb py.

Lemma sbind_inr_iff {E A B} (m : E + A) (k : A -> E + B) b :
  sbind m k = inr b <-> exists a, m = inr a /\ k a = inr b.
Proof. destruct m; split; naive_solver. Qed.

(** Binding related results with related continuations gives related
    results. *)
Lemma sbind_res_rel {E A A' B B'} (R : A -> A' -> Prop) (Q : B -> B' -> Prop)
    (m1 : E + A) (m2 : E + A') k1 k2 :
  res_rel R m1 m2 -> (forall a b, R a b -> res_rel Q (k1 a) (k2 b)) ->
  res_rel Q (sbind m1 k1) (sbind m2 k2).
Proof. intros [e|a b Hab] Hk; simpl; [constructor|auto]. Qed.

Section Results.
Context {E A B : Type}.

Lemma mapM_inr_Forall2 (f : A -> E + B) l l' :
  mapM f l = inr l' <-> Forall2 (fun x y => f x = inr y) l l'.
Proof.
  revert l'; induction l as [|x l IH]; intros l'; cbn [mapM].
  - split; [by intros [= <-]|by inversion 1].
  - rewrite sbind_inr_iff. split.
    + intros (y & Hy & (ys & Hys & [= <-])%sbind_inr_iff).
      constructor; [done|by apply IH].
    + inversion 1; subst. eexists; split; [done|].
      apply sbind_inr_iff. eexists; split; [by apply IH|done].
Qed.

(** The comprehension fails exactly when some element fails; the error
    is that of the first failing element. *)
Lemma mapM_inl (f : A -> E + B) l e :
  mapM f l = inl e ->
  exists l1 x l2, l = l1 ++ x :: l2 /\ f x = inl e /\
                  Forall (fun y => exists b, f y = inr b) l1.
Proof.
  induction l as [|x l IH]; simpl; [done|].
  destruct (f x) as [e'|b] eqn:Hx; simpl.
  - intros [= <-]. exists [], x, l. auto.
  - destruct (mapM f l) as [e'|bs]; simpl; [|done].
    intros [= <-]. destruct IH as (l1 & y & l2 & -> & Hy & Hl1); [done|].
    exists (x :: l1), y, l2. split_and!; [done|done|].
    constructor; eauto.
Qed.

Lemma mapM_res_rel {A' B'} (R : A -> A' -> Prop) (Q : B -> B' -> Prop)
    (f : A -> E + B) (g : A' -> E + B') l l' :
  Forall2 R l l' -> (forall x y, R x y -> res_rel Q (f x) (g y)) ->
  res_rel (Forall2 Q) (mapM f l) (mapM g l').
Proof.
  intros Hl Hfg. induction Hl as [|x y l l' Hxy _ IH]; simpl.
  - by repeat constructor.
  - destruct (Hfg x y Hxy); simpl; [constructor|].
    destruct IH; simpl; constructor. by constructor.
Qed.
End Results.

Section States.
Context {S E A B : Type}.

Lemma stbind_run (m : StE S E A) (k : A -> StE S E B) s s' r :
  m s = (s', r) ->
  stbind m k s = match r with inl e => (s', inl e) | inr a => k a s' end.
Proof. unfold stbind. intros ->. by destruct r. Qed.

(** The handler of [except C: pass] turns a caught exception into a
    normal completion in the state reached at the raise. *)
Lemma try_except_pass (catches : E -> bool) (m : StE S E unit) s :
  try_except catches m (fun _ => sret tt) s =
  match m s with
  | (s', inl e) => if catches e then (s', inr tt) else (s', inl e)
  | r => r
  end.
Proof. unfold try_except. by destruct (m s) as [? [?|?]]. Qed.
End States.

#[export] Hint Constructors res_rel : py.

(** Step over the first statement of a [let!] block whose run [H] gives. *)
Ltac step_run H := rewrite (stbind_run _ _ _ _ _ H).
