(* ===== verification/Py.v ===== *)
(** * Python values and the builtins the model code calls

    [json] is the Python value [json.loads] returns for a Discord payload
    ([None], [bool], [int], [str], [list], [dict]); a [dict] is its list
    of entries in insertion order.  [exn] are the exceptions the code can
    raise or let through.  The builtins follow CPython 3: [v[k]] with a
    string key, [dict.get], iteration by [for], and [bool(v)].  The
    equivalence [json_equiv] identifies values that differ only in the
    order of their dictionaries' entries. *)

From stdpp Require Import base list option sets strings.
From Stdlib Require Import ZArith.
From S2P Require Import Prelude.

Open Scope py_scope.
#[local] Set Warnings "-register-all".

(** * Values *)

Inductive json : Type :=
| JNull
| JBool (b : bool)
| JInt (z : Z)
| JStr (s : string)
| JList (l : list json)
| JObject (d : list (string * json)).

(** Induction with hypotheses on the elements of lists and on the values
    of dictionaries. *)
Definition json_ind_all (P : json -> Prop) (fnull : P JNull)
    (fbool : forall b, P (JBool b)) (fint : forall z, P (JInt z))
    (fstr : forall s, P (JStr s))
    (flist : forall l, Forall P l -> P (JList l))
    (fobj : forall d, Forall (fun kv => P kv.2) d -> P (JObject d)) :
    forall j, P j :=
  fix go j :=
    match j with
    | JNull => fnull
    | JBool b => fbool b
    | JInt z => fint z
    | JStr s => fstr s
    | JList l =>
        flist l ((fix gol (l : list json) : Forall P l :=
                    match l with
                    | [] => @List.Forall_nil _ _
                    | v :: l' => @List.Forall_cons _ P v l' (go v) (gol l')
                    end) l)
    | JObject d =>
        fobj d ((fix god (d : list (string * json)) :
                     Forall (fun kv => P kv.2) d :=
                   match d with
                   | [] => @List.Forall_nil _ _
                   | kv :: d' => @List.Forall_cons _ (fun kv => P kv.2) kv d' (go kv.2) (god d')
                   end) d)
    end.

Fixpoint json_eq_dec (x y : json) {struct x} : Decision (x = y).
Proof.
  refine (match x, y with
  | JNull, JNull => left eq_refl
  | JBool a, JBool b => cast_if (decide (a = b))
  | JInt a, JInt b => cast_if (decide (a = b))
  | JStr a, JStr b => cast_if (decide (a = b))
  | JList a, JList b => cast_if (@list_eq_dec _ json_eq_dec a b)
  | JObject a, JObject b =>
      cast_if (@list_eq_dec _ (@prod_eq_dec _ _ _ json_eq_dec) a b)
  | _, _ => right _
  end); congruence.
Defined.

#[export] Instance json_eq_decision : EqDecision json := json_eq_dec.

(** Python's [type(v).__name__]. *)
Definition py_type_name (v : json) : string :=
  match v with
  | JNull => "NoneType"
  | JBool _ => "bool"
  | JInt _ => "int"
  | JStr _ => "str"
  | JList _ => "list"
  | JObject _ => "dict"
  end.

(** * Exceptions *)

(** Errors of the session's request primitive (authentication, rate
    limits, HTTP failures): the model code never inspects them. *)
Inductive request_error :=
| Unauthorized
| RateLimited (retry_after : Z)
| HttpError (status : Z).

Inductive exn :=
| KeyError (key : string)
| TypeError (msg : string)
| AttributeError (type_name attr : string)
| RequestError (e : request_error).

#[export] Instance request_error_eq_dec : EqDecision request_error.
Proof. solve_decision. Defined.
#[export] Instance exn_eq_dec : EqDecision exn.
Proof. solve_decision. Defined.

(** [except AttributeError]. *)
Definition is_attribute_error (e : exn) : bool :=
  match e with AttributeError _ _ => true | _ => false end.

(** * Dictionaries *)

(** Lookup of a key in a dict; a Python dict has each key once, so the
    first entry is the only one. *)
Fixpoint dict_lookup (k : string) (d : list (string * json)) : option json :=
  match d with
  | [] => None
  | (k', v) :: d' => if decide (k = k') then Some v else dict_lookup k d'
  end.

(** [v[k]] for a string [k]. *)
Definition py_getitem (v : json) (k : string) : exn + json :=
  match v with
  | JObject d =>
      match dict_lookup k d with Some x => inr x | None => inl (KeyError k) end
  | JStr _ => inl (TypeError "string indices must be integers, not 'str'")
  | JList _ => inl (TypeError "list indices must be integers or slices, not str")
  | _ => inl (TypeError ("'" +:+ py_type_name v +:+ "' object is not subscriptable"))
  end.

(** [v.get(k, dflt)]: only a dict has a [get] method. *)
Definition py_get_default (v : json) (k : string) (dflt : json) : exn + json :=
  match v with
  | JObject d => inr (default dflt (dict_lookup k d))
  | _ => inl (AttributeError (py_type_name v) "get")
  end.

(** [v.get(k)]: the default is [None]. *)
Definition py_get (v : json) (k : string) : exn + json := py_get_default v k JNull.

(** [for x in v]: the elements of a list, the keys of a dict, the
    one-character strings of a str. *)
Definition py_iter (v : json) : exn + list json :=
  match v with
  | JList l => inr l
  | JObject d => inr (map (fun kv => JStr kv.1) d)
  | JStr s => inr (map (fun c => JStr (String.String c String.EmptyString)) (String.list_ascii_of_string s))
  | _ => inl (TypeError ("'" +:+ py_type_name v +:+ "' object is not iterable"))
  end.

(** [bool(v)]. *)
Definition py_bool (v : json) : bool :=
  match v with
  | JNull => false
  | JBool b => b
  | JInt z => negb (Z.eqb z 0)
  | JStr s => negb (String.eqb s "")
  | JList l => negb (bool_decide (l = []))
  | JObject d => negb (bool_decide (d = []))
  end.

Definition is_dict (v : json) : bool :=
  match v with JObject _ => true | _ => false end.

(** * Equality up to the order of dictionary entries *)

Inductive json_equiv : json -> json -> Prop :=
| JE_null : json_equiv JNull JNull
| JE_bool b : json_equiv (JBool b) (JBool b)
| JE_int z : json_equiv (JInt z) (JInt z)
| JE_str s : json_equiv (JStr s) (JStr s)
| JE_list l1 l2 : Forall2 json_equiv l1 l2 -> json_equiv (JList l1) (JList l2)
| JE_object d1 d2 :
    (forall k, option_Forall2 json_equiv (dict_lookup k d1) (dict_lookup k d2)) ->
    json_equiv (JObject d1) (JObject d2).

Infix "≡ⱼ" := json_equiv (at level 70) : py_scope.

(** * Lemmas *)

Lemma dict_lookup_elem k d v : dict_lookup k d = Some v -> (k, v) ∈ d.
Proof.
  induction d as [|[k' v'] d IH]; simpl; [done|].
  case_decide; [intros [= ->]; subst; left|intros; right; auto].
Qed.

Lemma Forall_dict_lookup (P : json -> Prop) k d v :
  Forall (fun kv => P kv.2) d -> dict_lookup k d = Some v -> P v.
Proof.
  rewrite Forall_forall. intros HP Hk%dict_lookup_elem. exact (HP _ Hk).
Qed.

Lemma dict_lookup_nil_iff d : (forall k, dict_lookup k d = None) <-> d = [].
Proof.
  split; [|by intros ->].
  destruct d as [|[k v] d]; [done|]. intros H. specialize (H k). simpl in H.
  by rewrite decide_True in H.
Qed.

Lemma json_equiv_refl_all : forall j, j ≡ⱼ j.
Proof.
  induction j as [| | | |l IH|d IH] using json_ind_all; try constructor.
  - induction IH; constructor; auto.
  - intros k. destruct (dict_lookup k d) as [v|] eqn:Hk; constructor.
    by apply (Forall_dict_lookup (fun j => j ≡ⱼ j) k d v).
Qed.

Lemma json_equiv_sym_all : forall x y, x ≡ⱼ y -> y ≡ⱼ x.
Proof.
  induction x as [| | | |l IH|d IH] using json_ind_all;
    intros y Hxy; inversion Hxy; subst; try constructor.
  - clear Hxy. match goal with H : Forall2 _ _ _ |- _ => revert IH; induction H end;
      intros IH; inversion IH; subst; constructor; auto.
  - intros k. match goal with H : forall _, option_Forall2 _ _ _ |- _ =>
      specialize (H k); inversion H; subst end; constructor.
    by eapply (Forall_dict_lookup (fun x => forall y, x ≡ⱼ y -> y ≡ⱼ x)).
Qed.

Lemma option_Forall2_trans_in {A} (R : A -> A -> Prop) (o1 o2 o3 : option A) :
  (forall x, o1 = Some x -> forall y z, R x y -> R y z -> R x z) ->
  option_Forall2 R o1 o2 -> option_Forall2 R o2 o3 -> option_Forall2 R o1 o3.
Proof.
  intros H Ho1 Ho2. inversion Ho1; subst; inversion Ho2; subst; constructor.
  eapply H; [reflexivity|eauto|eauto].
Qed.

Lemma json_equiv_trans_all : forall x y z, x ≡ⱼ y -> y ≡ⱼ z -> x ≡ⱼ z.
Proof.
  induction x as [| | | |l IH|d IH] using json_ind_all;
    intros y w Hxy Hyz; inversion Hxy; subst; inversion Hyz; subst;
    try constructor.
  - clear Hxy Hyz.
    match goal with H1 : Forall2 _ l ?m, H2 : Forall2 _ ?m ?n |- _ =>
      revert IH n H2; induction H1 end;
      intros IH n H2; inversion IH; inversion H2; subst; constructor; eauto.
  - intros k.
    eapply option_Forall2_trans_in; [|eauto|eauto].
    intros v Hk. exact (Forall_dict_lookup
      (fun x => forall y z, x ≡ⱼ y -> y ≡ⱼ z -> x ≡ⱼ z) k d v IH Hk).
Qed.

#[export] Instance json_equiv_equivalence : Equivalence json_equiv.
Proof.
  split; [exact json_equiv_refl_all|exact json_equiv_sym_all
         |exact json_equiv_trans_all].
Qed.

#[export] Instance py_type_name_proper : Proper (json_equiv ==> eq) py_type_name.
Proof. by intros x y []. Qed.

#[export] Instance py_bool_proper : Proper (json_equiv ==> eq) py_bool.
Proof.
  intros x y []; simpl; try done.
  - f_equal. by apply bool_decide_ext; split; intros ->;
      match goal with H : Forall2 _ _ _ |- _ => inversion H end.
  - f_equal. apply bool_decide_ext.
    rewrite <-!dict_lookup_nil_iff. split; intros Hn k;
      match goal with H : forall _, option_Forall2 _ _ _ |- _ =>
        specialize (H k); rewrite Hn in H; by inversion H end.
Qed.

#[export] Instance dict_lookup_proper k :
  Proper (json_equiv ==> res_rel json_equiv) (fun v => py_getitem v k).
Proof.
  intros x y []; simpl; try by constructor.
  match goal with H : forall _, option_Forall2 _ _ _ |- _ =>
    specialize (H k); inversion H end; by constructor.
Qed.

Lemma default_equiv (o1 o2 : option json) dflt :
  option_Forall2 json_equiv o1 o2 -> default dflt o1 ≡ⱼ default dflt o2.
Proof. intros []; simpl; [done|reflexivity]. Qed.

#[export] Hint Constructors json_equiv : py.
#[export] Hint Resolve default_equiv : py.

Lemma res_rel_refl {E A} (R : A -> A -> Prop) `{!Reflexive R} (r : E + A) :
  res_rel R r r.
Proof. destruct r; constructor. reflexivity. Qed.

(** Iterating equivalent dicts visits the same number of keys. *)
Lemma dict_equiv_nil d1 d2 :
  (forall k, option_Forall2 json_equiv (dict_lookup k d1) (dict_lookup k d2)) ->
  d1 = [] <-> d2 = [].
Proof.
  intros Hd. rewrite <-!dict_lookup_nil_iff.
  split; intros Hn k; specialize (Hd k); rewrite Hn in Hd; by inversion Hd.
Qed.

(** Swapping two entries with different keys gives an equivalent dict. *)
Lemma dict_swap_equiv k1 v1 k2 v2 d :
  k1 <> k2 -> JObject ((k1, v1) :: (k2, v2) :: d) ≡ⱼ JObject ((k2, v2) :: (k1, v1) :: d).
Proof.
  intros Hk. constructor. intros k. simpl.
  repeat case_decide; subst; try congruence; reflexivity.
Qed.
