(* ===== verification/Base.v ===== *)
(** * [DiscordModelsBase]: the interface every model implements

    The base class of flask-discord's models is code of the repository
    outside [src/]; it is modelled from the spec (sections 2, 3 and 6).
    A model class is a constructor from a payload that keeps the payload
    as [_payload] ([DiscordModel]) and, when the class can be fetched,
    the class attributes [ROUTE] and [MANY] ([ApiModel]).  The session
    object the base class calls is the interface [Session]: one request
    primitive keyed by route.  [fetch_from_api] is the inherited class
    method: one request, then one model per element of the response when
    [MANY], or one model for the whole response. *)

From stdpp Require Import base list option strings.
From S2P Require Import Prelude Py.

Open Scope py_scope.

(** [DiscordModelsBase.__init__] stores the payload; a subclass's
    [__init__] then reads its fields and may raise. *)
Class DiscordModel (T : Type) := {
  model_init : json -> exn + T;
  model_payload : T -> json;
  model_init_payload : forall p t, model_init p = inr t -> model_payload t = p
}.

(** The class attributes that [fetch_from_api] reads. *)
Class ApiModel (T : Type) := {
  ROUTE : string;
  MANY : bool
}.

(** The collaborator that performs authenticated requests: a GET of a
    route, returning the decoded JSON response or raising. *)
Class Session (S : Type) := {
  request : string -> StE S exn json
}.

Definition fetch_result (T : Type) (many : bool) : Type :=
  if many then list T else T.

Module DiscordModelsBase.

(** [[cls(_) for _ in payload]] when [MANY], [cls(payload)] otherwise. *)
Definition build_models {T} `{DiscordModel T} (many : bool) (payload : json) :
    exn + fetch_result T many :=
  match many as b return exn + fetch_result T b with
  | true => let? items := py_iter payload in mapM model_init items
  | false => model_init payload
  end.

(** [DiscordModelsBase.fetch_from_api]. *)
Definition fetch_from_api {S T} `{Session S} `{DiscordModel T} `{ApiModel T} :
    StE S exn (fetch_result T MANY) :=
  let! payload := request ROUTE in
  slift (build_models MANY payload).

(** * Lemmas of the interface *)

Section BaseLemmas.
Context {S T : Type} `{Session S} `{DiscordModel T} `{ApiModel T}.

(** The fetch is the request followed by the construction: the state
    is the one the request leaves, errors of the request come out
    unchanged. *)
Lemma fetch_from_api_run s s' r :
  request ROUTE s = (s', r) ->
  fetch_from_api s =
    (s', match r with inl e => inl e | inr p => build_models MANY p end).
Proof.
  intros Hr. unfold fetch_from_api. step_run Hr.
  by destruct r.
Qed.

(** Models built by a comprehension keep the payloads, in order. *)
Lemma mapM_model_payloads items (ms : list T) :
  mapM model_init items = inr ms -> map model_payload ms = items.
Proof.
  intros Hms%mapM_inr_Forall2.
  induction Hms as [|x m items ms Hx _ IH]; simpl; [done|].
  by rewrite (model_init_payload _ _ Hx), IH.
Qed.

End BaseLemmas.

End DiscordModelsBase.
