(* ===== verification/Integration.v ===== *)
(** * [Integration]: the nested model of a connection

    [flask_discord.Integration] is code of the repository outside [src/];
    the spec says only that it follows the pattern of every model: it
    keeps its payload and reads its attributes with [payload.get(...)],
    which never raises on a missing key.  Its attributes are not listed
    by the spec, so the model keeps the payload; the one observable
    behaviour beyond it is that [.get] exists only on a dict. *)

From stdpp Require Import base list option strings.
From S2P Require Import Prelude Py Base.

Open Scope py_scope.

Record Integration := { integration_payload : json }.

(** [Integration(payload)]: the first [payload.get(...)] raises
    [AttributeError] when the payload is not a dict. *)
Definition Integration_init (payload : json) : exn + Integration :=
  match payload with
  | JObject _ => inr {| integration_payload := payload |}
  | _ => inl (AttributeError (py_type_name payload) "get")
  end.

Lemma Integration_init_payload p i :
  Integration_init p = inr i -> integration_payload i = p.
Proof. destruct p; simpl; intros; simplify_eq; done. Qed.

#[export] Instance Integration_model : DiscordModel Integration := {
  model_init := Integration_init;
  model_payload := integration_payload;
  model_init_payload := Integration_init_payload
}.

(** Equality of integrations up to the order of their payloads' entries. *)
Definition integration_equiv (i j : Integration) : Prop :=
  integration_payload i ≡ⱼ integration_payload j.

Lemma Integration_init_dict p :
  Integration_init p = inr {| integration_payload := p |} <-> is_dict p = true.
Proof. destruct p; simpl; split; congruence. Qed.

Lemma Integration_init_proper x y :
  x ≡ⱼ y -> res_rel integration_equiv (Integration_init x) (Integration_init y).
Proof.
  intros Hxy. destruct Hxy; simpl; constructor.
  unfold integration_equiv; simpl. by constructor.
Qed.
