(* ===== verification/Client.v ===== *)
(** * The Flask-Discord client: users cache, current user, requests

    [current_app.discord] is code of the repository outside [src/]; it is
    modelled from the spec (sections 3, 5, 6 and 9): it owns the request
    primitive and a process-wide [users_cache] from user ids to [User]
    objects, and knows the [user_id] of the current session ([None] when
    nobody is logged in).

    Python objects are references: the cache maps ids to locations of a
    heap, so an assignment [user.connections = ...] changes the one object
    every holder of the reference sees.  A heap object is a [User] (with
    its payload and its [connections] attribute, [None] until set) or an
    object of another class that has no [connections] slot.  The type [C]
    of the attribute's value is a parameter: Python does not fix it, and
    the connection model instantiates it.  The request primitive is an
    oracle [respond] of the state; [requests] logs the routes requested. *)

From stdpp Require Import base list option gmap strings.
From Stdlib Require Import ZArith.
From S2P Require Import Prelude Py Base.

Open Scope py_scope.

Definition loc := positive.

(** A Python reference as [dict.get] returns it. *)
Inductive pyref := PNone | PRef (l : loc).

Inductive obj (C : Type) :=
| OUser (payload : json) (connections : option C)
| OForeign (cls : string).
Arguments OUser {C} payload connections.
Arguments OForeign {C} cls.

Record client (C : Type) := mk_client {
  heap : gmap loc (obj C);
  users_cache : gmap Z loc;
  user_id : option Z;
  respond : string -> exn + json;
  requests : list string
}.
Arguments mk_client {C}.
Arguments heap {C}.
Arguments users_cache {C}.
Arguments user_id {C}.
Arguments respond {C}.
Arguments requests {C}.

Section Client.
Context {C : Type}.
Implicit Types (s : client C).

Definition set_heap (h : gmap loc (obj C)) s : client C :=
  mk_client h (users_cache s) (user_id s) (respond s) (requests s).

Definition log_request (route : string) s : client C :=
  mk_client (heap s) (users_cache s) (user_id s) (respond s)
    (requests s ++ [route]).

(** [current_app.discord.request(route)]: the route is requested and
    the response (or the error) is the oracle's. *)
Definition client_request (route : string) : StE (client C) exn json :=
  fun s => (log_request route s, respond s route).

(** [current_app.discord.users_cache.get(current_app.discord.user_id)]. *)
Definition users_cache_get : StE (client C) exn pyref :=
  fun s => (s, inr (match user_id s with
                    | Some u => match users_cache s !! u with
                                | Some l => PRef l
                                | None => PNone
                                end
                    | None => PNone
                    end)).

(** The attribute assignment on one heap object. *)
Definition set_connections_obj (v : C) (o : obj C) : exn + obj C :=
  match o with
  | OUser p _ => inr (OUser p (Some v))
  | OForeign cls => inl (AttributeError cls "connections")
  end.

(** [user.connections = v]; on [None] (and on a dangling reference,
    which [client_wf] excludes) Python raises [AttributeError]. *)
Definition setattr_connections (r : pyref) (v : C) : StE (client C) exn unit :=
  fun s =>
    match r with
    | PNone => (s, inl (AttributeError "NoneType" "connections"))
    | PRef l =>
        match heap s !! l with
        | Some o =>
            match set_connections_obj v o with
            | inr o' => (set_heap (<[l := o']> (heap s)) s, inr tt)
            | inl e => (s, inl e)
            end
        | None => (s, inl (AttributeError "NoneType" "connections"))
        end
    end.

(** Every cached reference points to an allocated object. *)
Definition client_wf s : Prop :=
  map_Forall (fun _ l => is_Some (heap s !! l)) (users_cache s).

(** The cache as a reader sees it: user ids to the objects. *)
Definition users_view s : gmap Z (obj C) :=
  omap (fun l => heap s !! l) (users_cache s).

(** No two ids share one cached object. *)
Definition cache_injective s : Prop :=
  forall u1 u2 l, users_cache s !! u1 = Some l -> users_cache s !! u2 = Some l ->
                  u1 = u2.
End Client.

#[export] Instance client_session {C} : Session (client C) := {
  request := client_request
}.

(** * Lemmas *)

Section ClientLemmas.
Context {C : Type}.
Implicit Types (s : client C).

Lemma users_view_lookup s u :
  users_view s !! u = users_cache s !! u ≫= fun l => heap s !! l.
Proof. unfold users_view. by rewrite lookup_omap. Qed.

Lemma users_cache_get_run s :
  users_cache_get s =
    (s, inr (match user_id s ≫= fun u => users_cache s !! u with
             | Some l => PRef l | None => PNone end)).
Proof. unfold users_cache_get. by destruct (user_id s). Qed.

Lemma client_wf_dom s s' :
  users_cache s' = users_cache s -> dom (heap s') = dom (heap s) ->
  client_wf s -> client_wf s'.
Proof.
  unfold client_wf. intros Hc Hd Hwf u l Hu. rewrite Hc in Hu.
  apply elem_of_dom. rewrite Hd. apply elem_of_dom. by apply (Hwf u).
Qed.
End ClientLemmas.
