(* ===== verification/Connection.v ===== *)
(** * [UserConnection]: [src/flask_discord/models/connections.py]

    The module [UserConnection] holds the class: the record of its
    attributes, [__init__] with [__get_integrations], the property
    [is_visible], the class attributes and the class method
    [fetch_from_api] with its best-effort cache refresh.  The theorems
    give the behaviour of construction on every branch, the refinement of
    the fetch's contract by the stateful model, and the invariants the
    fetch keeps. *)

From stdpp Require Import base list option gmap strings.
From Stdlib Require Import ZArith.
From S2P Require Import Prelude Py Base Integration Client.

Open Scope py_scope.

Module UserConnection.

(** The attributes [__init__] sets, with [_payload] from the base class.
    Every attribute but [integrations] is the JSON value read from the
    payload ([None] is [JNull]). *)
Record UserConnection := mk_connection {
  _payload : json;
  id : json;
  name : json;
  type : json;
  revoked : json;
  integrations : list Integration;
  verified : json;
  friend_sync : json;
  show_activity : json;
  visibility : json;
  two_way_link : json
}.

(** [self.__get_integrations()]:
    [[Integration(payload) for payload in self._payload.get("integrations", list())]]. *)
Definition __get_integrations (payload : json) : exn + list Integration :=
  let? entries := py_get_default payload "integrations" (JList []) in
  let? items := py_iter entries in
  mapM Integration_init items.

(** [UserConnection.__init__]: the statements in source order; the first
    that raises aborts the construction. *)
Definition __init__ (payload : json) : exn + UserConnection :=
  let? id := py_getitem payload "id" in
  let? name := py_get payload "name" in
  let? type := py_get payload "type" in
  let? revoked := py_get payload "revoked" in
  let? integrations := __get_integrations payload in
  let? verified := py_get payload "verified" in
  let? friend_sync := py_get payload "friend_sync" in
  let? show_activity := py_get payload "show_activity" in
  let? visibility := py_get payload "visibility" in
  let? two_way_link := py_get payload "two_way_link" in
  inr {| _payload := payload; id := id; name := name; type := type;
         revoked := revoked; integrations := integrations;
         verified := verified; friend_sync := friend_sync;
         show_activity := show_activity; visibility := visibility;
         two_way_link := two_way_link |}.

(** The property [is_visible]: [bool(self.visibility)]. *)
Definition is_visible (c : UserConnection) : bool := py_bool (visibility c).

Lemma __init___payload p c : __init__ p = inr c -> _payload c = p.
Proof.
  unfold __init__.
  repeat match goal with
         | |- sbind ?m _ = _ -> _ => destruct m; simpl; [done|]
         end.
  by intros [= <-].
Qed.

#[global] Instance UserConnection_model : DiscordModel UserConnection := {
  model_init := __init__;
  model_payload := _payload;
  model_init_payload := __init___payload
}.

(** [MANY = True], [ROUTE = "/users/@me/connections"]. *)
#[global] Instance UserConnection_api : ApiModel UserConnection := {
  ROUTE := "/users/@me/connections";
  MANY := true
}.

Abbreviation conn_client := (client (list UserConnection)).

(** The [if cache:] block of [fetch_from_api]. *)
Definition refresh_users_cache (connections : list UserConnection) :
    StE conn_client exn unit :=
  let! user := users_cache_get in
  try_except is_attribute_error (setattr_connections user connections)
    (fun _ => sret tt).

(** [UserConnection.fetch_from_api(cache)]. *)
Definition fetch_from_api (cache : bool) : StE conn_client exn (list UserConnection) :=
  let! connections := @DiscordModelsBase.fetch_from_api conn_client UserConnection _ _ _ in
  let! _ := (if cache then refresh_users_cache connections else sret tt) in
  sret connections.

End UserConnection.

(** * Construction *)

Module Construction.
Import UserConnection.

(** [payload.get(k)] on a dict. *)
Definition dget (d : list (string * json)) (k : string) : json :=
  default JNull (dict_lookup k d).

(** The connection the spec describes for a dict payload, its [id] and its
    integrations: every other attribute is the value under its key, or
    [None]. *)
Definition connection_of_dict d (i : json) (ints : list Integration) : UserConnection :=
  {| _payload := JObject d; id := i; name := dget d "name"; type := dget d "type";
     revoked := dget d "revoked"; integrations := ints;
     verified := dget d "verified"; friend_sync := dget d "friend_sync";
     show_activity := dget d "show_activity"; visibility := dget d "visibility";
     two_way_link := dget d "two_way_link" |}.

(** The keys [__init__] reads with [.get]. *)
Definition optional_keys : list string :=
  ["name"; "type"; "revoked"; "integrations"; "verified"; "friend_sync";
   "show_activity"; "visibility"; "two_way_link"].

(** The payloads that construct: a dict with an [id] whose
    [integrations] (if present) is iterable with dict entries. *)
Definition integrations_ok (v : json) : bool :=
  match py_iter v with inr items => forallb is_dict items | inl _ => false end.

Definition connection_payload_ok (p : json) : bool :=
  match p with
  | JObject d =>
      bool_decide (is_Some (dict_lookup "id" d)) &&
      integrations_ok (default (JList []) (dict_lookup "integrations" d))
  | _ => false
  end.

Definition succeeded {E A} (r : E + A) : bool :=
  match r with inr _ => true | inl _ => false end.

(** Equality of connections up to the order of the payloads' entries. *)
Definition conn_equiv (c1 c2 : UserConnection) : Prop :=
  _payload c1 ≡ⱼ _payload c2 /\ id c1 ≡ⱼ id c2 /\ name c1 ≡ⱼ name c2 /\
  type c1 ≡ⱼ type c2 /\ revoked c1 ≡ⱼ revoked c2 /\
  Forall2 integration_equiv (integrations c1) (integrations c2) /\
  verified c1 ≡ⱼ verified c2 /\ friend_sync c1 ≡ⱼ friend_sync c2 /\
  show_activity c1 ≡ⱼ show_activity c2 /\ visibility c1 ≡ⱼ visibility c2 /\
  two_way_link c1 ≡ⱼ two_way_link c2.

(** ** Helper lemmas *)

Lemma get_integrations_dict d :
  __get_integrations (JObject d) =
    let? items := py_iter (default (JList []) (dict_lookup "integrations" d)) in
    mapM Integration_init items.
Proof. reflexivity. Qed.

(** On a dict every [.get] succeeds: construction fails only on the
    [id] subscript or in [__get_integrations]. *)
Lemma init_dict d :
  __init__ (JObject d) =
    match dict_lookup "id" d with
    | None => inl (KeyError "id")
    | Some i => let? ints := __get_integrations (JObject d) in
                inr (connection_of_dict d i ints)
    end.
Proof.
  unfold __init__. cbn [py_getitem].
  destruct (dict_lookup "id" d); [|done].
  cbn [sbind py_get py_get_default].
  by destruct (__get_integrations (JObject d)).
Qed.

Lemma init_non_dict p :
  is_dict p = false -> exists msg, __init__ p = inl (TypeError msg).
Proof. destruct p; simpl; try done; eauto. Qed.

Lemma mapM_Integration_init_dicts l :
  Forall (fun v => is_dict v = true) l ->
  mapM Integration_init l = inr (map (fun v => {| integration_payload := v |}) l).
Proof.
  induction 1 as [|v l Hv _ IH]; [done|]. cbn [mapM].
  rewrite (proj2 (Integration_init_dict v) Hv), IH. done.
Qed.

Lemma mapM_Integration_init_succeeds l :
  succeeded (mapM Integration_init l) = forallb is_dict l.
Proof.
  induction l as [|v l IH]; [done|]. cbn [mapM forallb].
  destruct v; simpl; try done; destruct (mapM Integration_init l); done.
Qed.

Lemma get_integrations_succeeds d :
  succeeded (__get_integrations (JObject d)) =
    integrations_ok (default (JList []) (dict_lookup "integrations" d)).
Proof.
  rewrite get_integrations_dict. unfold integrations_ok.
  destruct (py_iter _); [done|]. apply mapM_Integration_init_succeeds.
Qed.


Lemma dget_equiv d1 d2 k :
  (forall k, option_Forall2 json_equiv (dict_lookup k d1) (dict_lookup k d2)) ->
  dget d1 k ≡ⱼ dget d2 k.
Proof. intros Hd. apply default_equiv, Hd. Qed.

#[local] Hint Resolve dget_equiv : py.

#[local] Instance integration_equiv_refl : Reflexive integration_equiv.
Proof. intros i. unfold integration_equiv. reflexivity. Qed.

(** A comprehension [[f(x) for x in v]] over equivalent values gives
    related results, in the same order, when [f] is proper and raises one
    same exception on every string: a list is iterated in its order, and
    a non-empty dict is iterated over its keys, strings, on which [f]
    raises whatever their order. *)
Lemma iter_mapM_proper {B B'} (R : B -> B' -> Prop) (f : json -> exn + B) (g : json -> exn + B')
    v1 v2 :
  (forall x y, x ≡ⱼ y -> res_rel R (f x) (g y)) ->
  (exists e, forall k1 k2, f (JStr k1) = inl e /\ g (JStr k2) = inl e) ->
  v1 ≡ⱼ v2 ->
  res_rel (Forall2 R) (let? items := py_iter v1 in mapM f items)
    (let? items := py_iter v2 in mapM g items).
Proof.
  intros Hfg [e He] Hv. destruct Hv as [| | |s0|l1 l2 Hl|d1 d2 Hd]; simpl;
    try by constructor.
  - induction (String.list_ascii_of_string s0) as [|a l IH]; simpl; [by repeat constructor|].
    destruct (He (String.String a String.EmptyString) (String.String a String.EmptyString))
      as [-> ->]. constructor.
  - eapply mapM_res_rel; [exact Hl|]. exact Hfg.
  - destruct d1 as [|[k1 v1] d1], d2 as [|[k2 v2] d2]; simpl.
    + by repeat constructor.
    + by pose proof (proj1 (dict_equiv_nil _ _ Hd) eq_refl).
    + by pose proof (proj2 (dict_equiv_nil _ _ Hd) eq_refl).
    + destruct (He k1 k2) as [-> ->]. constructor.
Qed.

(** The integrations built from equivalent [integrations] values are
    equivalent, in the same order. *)
Lemma integrations_from_proper v1 v2 :
  v1 ≡ⱼ v2 ->
  res_rel (Forall2 integration_equiv)
    (let? items := py_iter v1 in mapM Integration_init items)
    (let? items := py_iter v2 in mapM Integration_init items).
Proof.
  apply iter_mapM_proper; [apply Integration_init_proper|].
  by exists (AttributeError "str" "get").
Qed.

(** What a successful construction built. *)
Lemma init_inr_inv p c :
  __init__ p = inr c ->
  exists d i ints, p = JObject d /\ dict_lookup "id" d = Some i /\
    __get_integrations p = inr ints /\ c = connection_of_dict d i ints.
Proof.
  destruct (is_dict p) eqn:Hp.
  - destruct p as [| | | | |d]; try done. rewrite init_dict.
    destruct (dict_lookup "id" d) as [i|] eqn:Hi; [|done].
    intros (ints & Hints & [= <-])%sbind_inr_iff.
    exists d, i, ints. by split_and!.
  - destruct (init_non_dict p Hp) as [msg ->]. done.
Qed.

(** Construction respects the order-insensitive equality of payloads. *)
Lemma init_proper p q : p ≡ⱼ q -> res_rel conn_equiv (__init__ p) (__init__ q).
Proof.
  intros Hpq. destruct Hpq as [| | | |l1 l2 _|d1 d2 Hd]; try by constructor.
  rewrite !init_dict. generalize (Hd "id").
  destruct (dict_lookup "id" d1), (dict_lookup "id" d2); inversion 1; subst;
    [|constructor].
  apply (sbind_res_rel (Forall2 integration_equiv)).
  - rewrite !get_integrations_dict. by apply integrations_from_proper, default_equiv.
  - intros a b Hab. constructor.
    unfold conn_equiv, connection_of_dict; simpl. split_and!; eauto with py.
Qed.

(** ** Theorems on construction *)

(** C1. [UserConnection(payload)] constructs exactly when the payload is
    a dict with an [id] whose integrations construct; the result then has
    [id = payload["id"]], [_payload = payload], the integrations built by
    [__get_integrations], and every other attribute [payload.get(key)]. *)
Theorem init_functional p c :
  __init__ p = inr c <->
  exists d i ints, p = JObject d /\ dict_lookup "id" d = Some i /\
    __get_integrations p = inr ints /\ c = connection_of_dict d i ints.
Proof.
  split; [apply init_inr_inv|].
  intros (d & i & ints & -> & Hi & Hints & ->).
    by rewrite init_dict, Hi, Hints.
Qed.

(** C2. A dict payload without [id] raises [KeyError('id')]: no object
    is constructed, whatever else the payload holds. *)
Theorem init_missing_id d :
  dict_lookup "id" d = None -> __init__ (JObject d) = inl (KeyError "id").
Proof. intros Hi. by rewrite init_dict, Hi. Qed.

(** C3. A payload that is not a dict raises the [TypeError] of the
    [payload["id"]] subscript, before any [.get] could raise
    [AttributeError]. *)
Theorem init_not_mapping p :
  is_dict p = false ->
  exists msg, py_getitem p "id" = inl (TypeError msg) /\ __init__ p = inl (TypeError msg).
Proof. destruct p; simpl; try done; eauto. Qed.

(** C4. A payload with an [id] and none of the optional keys constructs
    a connection whose optional attributes are all [None] and whose
    integrations are empty. *)
Theorem init_defaults d i :
  dict_lookup "id" d = Some i ->
  Forall (fun k => dict_lookup k d = None) optional_keys ->
  __init__ (JObject d) =
    inr {| _payload := JObject d; id := i; name := JNull; type := JNull;
           revoked := JNull; integrations := []; verified := JNull;
           friend_sync := JNull; show_activity := JNull; visibility := JNull;
           two_way_link := JNull |}.
Proof.
  intros Hi Hk. rewrite init_dict, Hi, get_integrations_dict.
  unfold optional_keys in Hk. rewrite !Forall_cons in Hk.
  destruct_and! Hk. unfold connection_of_dict, dget.
  by repeat match goal with H : dict_lookup _ d = None |- _ =>
    rewrite H; clear H end.
Qed.

(** C5. With an [id] and a list of dicts under [integrations], the
    connection has one integration per entry, in payload order. *)
Theorem init_integrations_order d i l :
  dict_lookup "id" d = Some i -> dict_lookup "integrations" d = Some (JList l) ->
  Forall (fun v => is_dict v = true) l ->
  exists c, __init__ (JObject d) = inr c /\
    map integration_payload (integrations c) = l /\
    length (integrations c) = length l.
Proof.
  intros Hi Hl Hd. rewrite init_dict, Hi, get_integrations_dict, Hl. simpl.
  rewrite (mapM_Integration_init_dicts l Hd). simpl.
  eexists; split; [done|]. cbn [integrations connection_of_dict].
  rewrite map_map, length_map. split; [|done]. apply map_id.
Qed.

(** C6. [is_visible] is the truthiness of the [visibility] value read
    from the payload: for an integer it holds iff the integer is
    non-zero, and it is false when [visibility] is absent or [null]. *)
Theorem is_visible_spec d c :
  __init__ (JObject d) = inr c ->
  (forall z, dict_lookup "visibility" d = Some (JInt z) ->
             is_visible c = true <-> z <> 0%Z) /\
  (dict_lookup "visibility" d = None \/ dict_lookup "visibility" d = Some JNull ->
   is_visible c = false).
Proof.
  intros (d' & i & ints & [= <-] & _ & _ & ->)%init_inr_inv.
  unfold is_visible, connection_of_dict, dget; simpl. split.
  - intros z ->. simpl. rewrite negb_true_iff, Z.eqb_neq. done.
  - by intros [-> | ->].
Qed.

(** The spec's scenario: [{"id": "1", "visibility": 1,
    "integrations": []}] gives [id = "1"], [is_visible = True] and no
    integrations. *)
Example init_scenario :
  sbind (__init__ (JObject [("id", JStr "1"); ("visibility", JInt 1);
                            ("integrations", JList [])]))
    (fun c => inr (id c, is_visible c, integrations c)) =
  (inr (JStr "1", true, []) : exn + _).
Proof. reflexivity. Qed.

(** C7. Construction succeeds exactly on the payloads
    [connection_payload_ok] accepts. *)
Theorem init_succeeds_iff p :
  succeeded (__init__ p) = connection_payload_ok p.
Proof.
  destruct (is_dict p) eqn:Hp.
  - destruct p as [| | | | |d]; try done. rewrite init_dict. simpl.
    destruct (dict_lookup "id" d); simpl; [|done].
    rewrite <-get_integrations_succeeds.
    by destruct (__get_integrations (JObject d)).
  - destruct (init_non_dict p Hp) as [msg ->]. by destruct p.
Qed.

(** C8. An explicit [null] under [integrations] is not the absent key:
    [.get] returns [None] and iterating it raises [TypeError]. *)
Theorem init_integrations_null d i :
  dict_lookup "id" d = Some i -> dict_lookup "integrations" d = Some JNull ->
  __init__ (JObject d) = inl (TypeError "'NoneType' object is not iterable").
Proof. intros Hi Hn. by rewrite init_dict, Hi, get_integrations_dict, Hn. Qed.

(** [is_visible] is Python truthiness, not the spec's "non-zero
    integer": the string ["0"] makes a connection visible. *)
Example is_visible_string_zero :
  sbind (__init__ (JObject [("id", JStr "1"); ("visibility", JStr "0")]))
    (fun c => inr (is_visible c)) = (inr true : exn + bool).
Proof. reflexivity. Qed.

End Construction.

(** * Fetching *)

Module Fetch.
Import UserConnection Construction.

Abbreviation route := (@ROUTE UserConnection _).

(** [[UserConnection(_) for _ in payload]]. *)
Definition parse_connections (p : json) : exn + list UserConnection :=
  let? items := py_iter p in mapM __init__ items.

(** What the fetch returns in state [s]. *)
Definition fetch_outcome (s : conn_client) : exn + list UserConnection :=
  let? p := respond s route in parse_connections p.

(** The state change of the cache block: the current user's cached
    object gets the list when it is a [User]; anything else is left as
    it was. *)
Definition refresh_effect (cs : list UserConnection) (s : conn_client) : conn_client :=
  match user_id s ≫= fun u => users_cache s !! u with
  | Some l =>
      match heap s !! l with
      | Some (OUser p _) => set_heap (<[l := OUser p (Some cs)]> (heap s)) s
      | _ => s
      end
  | None => s
  end.

(** ** The contract of the fetch (spec, section 4.1)

    Over the cache as its readers see it ([users_view]): on success the
    current user's entry, when it is a [User], holds the fetched list and
    nothing else changes; on failure nothing changes. *)
Definition assign_connections (cs : list UserConnection) (o : obj (list UserConnection)) :
    obj (list UserConnection) :=
  match o with OUser p _ => OUser p (Some cs) | OForeign c => OForeign c end.

Definition fetch_contract (cache : bool) (uid : option Z) (resp : exn + json)
    (users : gmap Z (obj (list UserConnection))) :
    gmap Z (obj (list UserConnection)) * (exn + list UserConnection) :=
  match (let? p := resp in parse_connections p) with
  | inl e => (users, inl e)
  | inr cs =>
      (if cache then match uid with
                     | Some u => alter (assign_connections cs) u users
                     | None => users
                     end
       else users, inr cs)
  end.

(** ** Helper lemmas *)

(** The guarded assignment of lines 84-87 on the reference line 83 read. *)
Lemma guarded_assign_run cs s :
  try_except is_attribute_error
    (setattr_connections (match user_id s ≫= fun u => users_cache s !! u with
                          | Some l => PRef l | None => PNone end) cs)
    (fun _ => sret tt) s = (refresh_effect cs s, inr tt).
Proof.
  rewrite try_except_pass. unfold refresh_effect.
  destruct (user_id s ≫= _) as [l|]; [|done].
  unfold setattr_connections. by destruct (heap s !! l) as [[]|].
Qed.

Lemma refresh_users_cache_run cs s :
  refresh_users_cache cs s = (refresh_effect cs s, inr tt).
Proof.
  unfold refresh_users_cache. step_run (users_cache_get_run s). apply guarded_assign_run.
Qed.

(** Line 80: the inherited fetch is one request and the parse of its answer. *)
Lemma base_fetch_run s :
  @DiscordModelsBase.fetch_from_api conn_client UserConnection _ _ _ s =
    (log_request route s, fetch_outcome s).
Proof.
  rewrite (@DiscordModelsBase.fetch_from_api_run conn_client UserConnection
             client_session UserConnection_model UserConnection_api s
             (log_request route s) (respond s route) eq_refl).
  unfold fetch_outcome. by destruct (respond s route).
Qed.

(** The fetch in one equation: one request, then on success the cache
    block when [cache] holds. *)
Lemma fetch_run cache s :
  fetch_from_api cache s =
    match fetch_outcome s with
    | inl e => (log_request route s, inl e)
    | inr cs => (if cache then refresh_effect cs (log_request route s)
                 else log_request route s, inr cs)
    end.
Proof.
  unfold fetch_from_api. step_run (base_fetch_run s).
  destruct (fetch_outcome s) as [e|cs]; [done|].
  destruct cache; [|done]. by step_run (refresh_users_cache_run cs (log_request route s)).
Qed.

Lemma refresh_effect_frame cs s :
  users_cache (refresh_effect cs s) = users_cache s /\
  user_id (refresh_effect cs s) = user_id s /\
  requests (refresh_effect cs s) = requests s /\
  respond (refresh_effect cs s) = respond s /\
  dom (heap (refresh_effect cs s)) = dom (heap s).
Proof.
  unfold refresh_effect. destruct (user_id s ≫= _) as [l|]; [|done].
  destruct (heap s !! l) as [[]|] eqn:Hl; try done. simpl.
  split_and!; try done. rewrite dom_insert_L. apply elem_of_dom_2 in Hl. set_solver.
Qed.

(** Under an injective cache the state change of the cache block is the
    contract's [alter] on the view. *)
Lemma refresh_effect_view cs s :
  cache_injective s ->
  users_view (refresh_effect cs s) =
    match user_id s with
    | Some u => alter (assign_connections cs) u (users_view s)
    | None => users_view s
    end.
Proof.
  intros Hinj. unfold refresh_effect.
  destruct (user_id s) as [u|]; simpl; [|done].
  destruct (users_cache s !! u) as [l|] eqn:Hu.
  2:{ symmetry. apply alter_id'. by rewrite users_view_lookup, Hu. }
  destruct (heap s !! l) as [[p old|c]|] eqn:Hl.
  - apply map_eq. intros u'. rewrite lookup_alter, !users_view_lookup. simpl.
    case_decide as Heq; [subst u'; rewrite Hu; simpl; by rewrite lookup_insert_eq, Hl|].
    destruct (users_cache s !! u') as [l'|] eqn:Hu'; simpl; [|done].
    rewrite lookup_insert_ne; [done|]. intros <-. apply Heq. by eapply Hinj.
  - symmetry. apply alter_id. intros o. rewrite users_view_lookup, Hu. simpl.
    rewrite Hl. by intros [= <-].
  - symmetry. apply alter_id'. by rewrite users_view_lookup, Hu; simpl.
Qed.

Lemma fetch_outcome_parse s p :
  respond s route = inr p -> fetch_outcome s = parse_connections p.
Proof. unfold fetch_outcome. by intros ->. Qed.

(** ** Theorems on the fetch *)

(** C9. Refinement: with an injective cache, the fetch implements its
    contract on the cache as readers see it, and logs one request. *)
Theorem fetch_refines_contract cache s :
  cache_injective s ->
  users_view (fetch_from_api cache s).1 =
    (fetch_contract cache (user_id s) (respond s route) (users_view s)).1 /\
  (fetch_from_api cache s).2 =
    (fetch_contract cache (user_id s) (respond s route) (users_view s)).2 /\
  requests (fetch_from_api cache s).1 = requests s ++ [route].
Proof.
  intros Hinj. rewrite fetch_run. unfold fetch_contract.
  change (let? p := respond s route in parse_connections p) with (fetch_outcome s).
  destruct (fetch_outcome s) as [e|cs]; [done|].
  destruct cache; [|done]. destruct (refresh_effect_frame cs (log_request route s))
    as (_ & _ & Hreq & _).
  cbn [fst snd]. rewrite Hreq, refresh_effect_view by done. done.
Qed.

(** C10. With [cache=True] and no cached object for the current user, the
    fetch returns the parsed list without raising and changes nothing
    but the request log. *)
Theorem fetch_cache_miss s cs :
  (user_id s ≫= fun u => users_cache s !! u) = None ->
  fetch_outcome s = inr cs ->
  fetch_from_api true s = (log_request route s, inr cs).
Proof. intros Hmiss Hcs. rewrite fetch_run, Hcs. unfold refresh_effect. simpl. by rewrite Hmiss. Qed.

(** Every fetch, successful or not, issues exactly one request, to
    [/users/@me/connections]. *)
Lemma fetch_one_request cache s :
  requests (fetch_from_api cache s).1 = requests s ++ ["/users/@me/connections"].
Proof.
  rewrite fetch_run. destruct (fetch_outcome s) as [|cs]; [done|].
  destruct cache; [|done]. cbn [fst snd].
  by destruct (refresh_effect_frame cs (log_request route s)) as (_ & _ & -> & _).
Qed.

(** C11. An error of the request primitive propagates unmodified and the
    cache is not touched. *)
Theorem fetch_request_error cache s e :
  respond s route = inl e -> fetch_from_api cache s = (log_request route s, inl e).
Proof. intros He. rewrite fetch_run. unfold fetch_outcome. by rewrite He. Qed.

(** C12. A response that does not construct (a missing [id], a non-list)
    raises before any cache update: the fetch is atomic. *)
Theorem fetch_parse_error cache s p e :
  respond s route = inr p -> parse_connections p = inl e ->
  fetch_from_api cache s = (log_request route s, inl e).
Proof. intros Hp He. by rewrite fetch_run, (fetch_outcome_parse s p Hp), He. Qed.

(** C13. On a cache hit on a [User], the fetch assigns the fetched list
    to that object's [connections] and returns the same list. *)
Theorem fetch_updates_cached_user s u l p old cs :
  user_id s = Some u -> users_cache s !! u = Some l ->
  heap s !! l = Some (OUser p old) -> fetch_outcome s = inr cs ->
  fetch_from_api true s =
    (set_heap (<[l := OUser p (Some cs)]> (heap s)) (log_request route s), inr cs).
Proof.
  intros Hu Hl Ho Hcs. rewrite fetch_run, Hcs. unfold refresh_effect. simpl.
  by rewrite Hu; simpl; rewrite Hl, Ho.
Qed.

(** C14. A cached object without a [connections] slot makes the
    assignment raise [AttributeError], which is swallowed: the fetch
    returns the list and the object is unchanged. *)
Theorem fetch_foreign_object_ignored s u l c cs :
  user_id s = Some u -> users_cache s !! u = Some l ->
  heap s !! l = Some (OForeign c) -> fetch_outcome s = inr cs ->
  fetch_from_api true s = (log_request route s, inr cs).
Proof.
  intros Hu Hl Ho Hcs. rewrite fetch_run, Hcs. unfold refresh_effect. simpl.
  by rewrite Hu; simpl; rewrite Hl, Ho.
Qed.

(** C15. With [cache=False] the fetch changes nothing but the request
    log. *)
Theorem fetch_nocache_frame s :
  (fetch_from_api false s).1 = log_request route s.
Proof. rewrite fetch_run. by destruct (fetch_outcome s). Qed.

(** The fetch keeps the client well formed: every cached reference
    still points to an object. *)
Lemma fetch_preserves_wf cache s :
  client_wf s -> client_wf (fetch_from_api cache s).1.
Proof.
  intros Hwf. rewrite fetch_run.
  destruct (fetch_outcome s) as [|cs]; [done|]. destruct cache; [|done].
  destruct (refresh_effect_frame cs (log_request route s)) as (Hc & _ & _ & _ & Hd).
  cbn [fst snd]. by eapply client_wf_dom.
Qed.

(** The value the fetch returns is the parse of the response. *)
Lemma fetch_returns_outcome cache s :
  (fetch_from_api cache s).2 = fetch_outcome s.
Proof. rewrite fetch_run. by destruct (fetch_outcome s), cache. Qed.

(** C16. The value the fetch returns depends only on the server's
    answer, up to the order of the entries of its dicts: with or without
    [cache], whatever the users cache and the current user, equivalent
    answers give the same exception or equivalent connections, one per
    element, in the same order. *)
Theorem fetch_order_independent cache cache' s s' :
  res_rel json_equiv (respond s route) (respond s' route) ->
  res_rel (Forall2 conn_equiv) (fetch_from_api cache s).2 (fetch_from_api cache' s').2.
Proof.
  intros Hr. rewrite !fetch_returns_outcome. unfold fetch_outcome, parse_connections.
  apply (sbind_res_rel json_equiv); [done|]. intros p q Hpq.
  apply iter_mapM_proper; [apply init_proper| |done].
  by exists (TypeError "string indices must be integers, not 'str'").
Qed.

(** C17. For a list response, the fetched connections are one per
    element, in response order. *)
Theorem fetch_preserves_order cache s l cs :
  respond s route = inr (JList l) -> (fetch_from_api cache s).2 = inr cs ->
  map _payload cs = l.
Proof.
  rewrite fetch_returns_outcome. intros Hl Hcs.
  rewrite (fetch_outcome_parse s _ Hl) in Hcs.
  apply (@DiscordModelsBase.mapM_model_payloads UserConnection UserConnection_model). exact Hcs.
Qed.

(** C18. Python objects are shared: when two ids of the cache hold the
    same [User] object, the refresh made through the current user's id
    is seen through the other id too. *)
Theorem fetch_alias s u u' l p old cs :
  user_id s = Some u -> users_cache s !! u = Some l -> users_cache s !! u' = Some l ->
  heap s !! l = Some (OUser p old) -> fetch_outcome s = inr cs ->
  users_view (fetch_from_api true s).1 !! u' = Some (OUser p (Some cs)).
Proof.
  intros Hu Hl Hl' Ho Hcs. rewrite fetch_run, Hcs. unfold refresh_effect. simpl.
  rewrite Hu. simpl. rewrite Hl, Ho. rewrite users_view_lookup. simpl. rewrite Hl'. simpl.
  by rewrite lookup_insert_eq.
Qed.

(** C19. A dict response is iterated over its keys: an empty dict gives
    an empty list, any other dict raises [TypeError] at the first key. *)
Theorem fetch_dict_response cache s d :
  respond s route = inr (JObject d) ->
  (fetch_from_api cache s).2 =
    match d with
    | [] => inr []
    | _ :: _ => inl (TypeError "string indices must be integers, not 'str'")
    end.
Proof.
  rewrite fetch_returns_outcome. intros Hd. rewrite (fetch_outcome_parse s _ Hd).
  by destruct d.
Qed.

(** C20. When a list response does not construct, the exception is the
    one of the first element that fails, all elements before it
    constructing. *)
Theorem fetch_first_error cache s l e :
  respond s route = inr (JList l) -> (fetch_from_api cache s).2 = inl e ->
  exists l1 x l2, l = l1 ++ x :: l2 /\ __init__ x = inl e /\
    Forall (fun y => succeeded (__init__ y) = true) l1.
Proof.
  rewrite fetch_returns_outcome. intros Hl He. rewrite (fetch_outcome_parse s _ Hl) in He.
  destruct (mapM_inl _ _ _ He) as (l1 & x & l2 & -> & Hx & Hl1).
  exists l1, x, l2. split_and!; [done|done|].
  eapply Forall_impl; [exact Hl1|]. by intros y [c ->].
Qed.
End Fetch.

(** * Witnesses: the theorems applied to concrete payloads and clients *)

Module Witnesses.
Import UserConnection Construction Fetch.

Definition demo_dict : list (string * json) :=
  [("id", JStr "1"); ("visibility", JInt 1); ("integrations", JList [])].

Definition demo_conn : UserConnection := connection_of_dict demo_dict (JStr "1") [].

Definition demo_client (uid : option Z) (h : gmap loc (obj (list UserConnection)))
    (cache : gmap Z loc) (resp : exn + json) : conn_client :=
  mk_client h cache uid (fun _ => resp) [].

Definition demo_user : obj (list UserConnection) := OUser (JObject [("id", JStr "7")]) None.

Definition demo_hit : conn_client :=
  demo_client (Some 7%Z) {[1%positive := demo_user]} {[7%Z := 1%positive]}
    (inr (JList [JObject demo_dict])).

Lemma init_missing_id_witness :
  __init__ (JObject [("name", JStr "x")]) = inl (KeyError "id").
Proof. apply init_missing_id. reflexivity. Defined.

Lemma init_not_mapping_witness :
  exists msg, py_getitem (JList [JObject demo_dict]) "id" = inl (TypeError msg) /\
              __init__ (JList [JObject demo_dict]) = inl (TypeError msg).
Proof. apply init_not_mapping. reflexivity. Defined.

Lemma init_defaults_witness :
  __init__ (JObject [("id", JStr "1")]) =
    inr {| _payload := JObject [("id", JStr "1")]; id := JStr "1"; name := JNull;
           type := JNull; revoked := JNull; integrations := []; verified := JNull;
           friend_sync := JNull; show_activity := JNull; visibility := JNull;
           two_way_link := JNull |}.
Proof. apply init_defaults; [reflexivity|repeat constructor]. Defined.

Lemma init_integrations_order_witness :
  exists c, __init__ (JObject [("id", JStr "1");
                              ("integrations", JList [JObject []; JObject [("id", JStr "9")]])]) = inr c /\
    map integration_payload (integrations c) = [JObject []; JObject [("id", JStr "9")]] /\
    length (integrations c) = 2.
Proof. apply init_integrations_order with (i := JStr "1"); [reflexivity|reflexivity|repeat constructor]. Defined.

Lemma is_visible_spec_witness :
  (forall z, dict_lookup "visibility" demo_dict = Some (JInt z) ->
             is_visible demo_conn = true <-> z <> 0%Z) /\
  (dict_lookup "visibility" demo_dict = None \/
   dict_lookup "visibility" demo_dict = Some JNull -> is_visible demo_conn = false).
Proof. apply is_visible_spec. reflexivity. Defined.

Lemma init_integrations_null_witness :
  __init__ (JObject [("id", JStr "1"); ("integrations", JNull)]) =
    inl (TypeError "'NoneType' object is not iterable").
Proof. apply init_integrations_null with (i := JStr "1"); reflexivity. Defined.

Lemma fetch_order_independent_witness :
  res_rel (Forall2 conn_equiv) (fetch_from_api true demo_hit).2
    (fetch_from_api false (demo_client None ∅ ∅
       (inr (JList [JObject [("id", JStr "1"); ("integrations", JList []); ("visibility", JInt 1)]])))).2.
Proof.
  apply fetch_order_independent. cbn. constructor. constructor. constructor; [|constructor].
  constructor. intros k. simpl. repeat case_decide; subst; try congruence; reflexivity.
Defined.

Lemma fetch_refines_contract_witness :
  users_view (fetch_from_api true demo_hit).1 =
    (fetch_contract true (user_id demo_hit) (respond demo_hit route) (users_view demo_hit)).1 /\
  (fetch_from_api true demo_hit).2 =
    (fetch_contract true (user_id demo_hit) (respond demo_hit route) (users_view demo_hit)).2 /\
  requests (fetch_from_api true demo_hit).1 = requests demo_hit ++ [route].
Proof.
  apply fetch_refines_contract. intros u1 u2 l.
  cbn. rewrite !lookup_singleton_Some. naive_solver.
Defined.

Lemma fetch_cache_miss_witness :
  fetch_from_api true (demo_client None ∅ ∅ (inr (JList [JObject demo_dict]))) =
    (log_request route (demo_client None ∅ ∅ (inr (JList [JObject demo_dict]))),
     inr [demo_conn]).
Proof. apply fetch_cache_miss; reflexivity. Defined.

Lemma fetch_request_error_witness :
  fetch_from_api true (demo_client (Some 7%Z) ∅ ∅ (inl (RequestError (RateLimited 5)))) =
    (log_request route (demo_client (Some 7%Z) ∅ ∅ (inl (RequestError (RateLimited 5)))),
     inl (RequestError (RateLimited 5))).
Proof. apply fetch_request_error. reflexivity. Defined.

Lemma fetch_parse_error_witness :
  fetch_from_api true (demo_client None ∅ ∅ (inr (JList [JObject [("name", JNull)]]))) =
    (log_request route (demo_client None ∅ ∅ (inr (JList [JObject [("name", JNull)]]))),
     inl (KeyError "id")).
Proof.
  apply fetch_parse_error with (p := JList [JObject [("name", JNull)]]); reflexivity.
Defined.

Lemma fetch_updates_cached_user_witness :
  fetch_from_api true demo_hit =
    (set_heap (<[1%positive := OUser (JObject [("id", JStr "7")]) (Some [demo_conn])]>
                 (heap demo_hit)) (log_request route demo_hit), inr [demo_conn]).
Proof. apply fetch_updates_cached_user with (u := 7%Z) (old := None); reflexivity. Defined.

Lemma fetch_foreign_object_ignored_witness :
  fetch_from_api true
    (demo_client (Some 7%Z) {[1%positive := OForeign "dict"]} {[7%Z := 1%positive]}
       (inr (JList [JObject demo_dict]))) =
  (log_request route
     (demo_client (Some 7%Z) {[1%positive := OForeign "dict"]} {[7%Z := 1%positive]}
        (inr (JList [JObject demo_dict]))), inr [demo_conn]).
Proof.
  apply fetch_foreign_object_ignored with (u := 7%Z) (l := 1%positive) (c := "dict");
    reflexivity.
Defined.

Lemma fetch_preserves_order_witness :
  map _payload [demo_conn] = [JObject demo_dict].
Proof. apply (fetch_preserves_order true demo_hit); reflexivity. Defined.

Lemma fetch_alias_witness :
  users_view (fetch_from_api true
    (demo_client (Some 7%Z) {[1%positive := demo_user]}
       {[7%Z := 1%positive; 8%Z := 1%positive]} (inr (JList [JObject demo_dict])))).1
    !! 8%Z = Some (OUser (JObject [("id", JStr "7")]) (Some [demo_conn])).
Proof.
  apply fetch_alias with (u := 7%Z) (l := 1%positive) (old := None); reflexivity.
Defined.

Lemma fetch_dict_response_witness :
  (fetch_from_api false (demo_client None ∅ ∅ (inr (JObject [])))).2 = inr [].
Proof. apply (fetch_dict_response false _ []). reflexivity. Defined.

Lemma fetch_first_error_witness :
  exists l1 x l2,
    [JObject demo_dict; JObject []; JNull] = l1 ++ x :: l2 /\ __init__ x = inl (KeyError "id") /\
    Forall (fun y => succeeded (__init__ y) = true) l1.
Proof.
  apply (fetch_first_error true
           (demo_client None ∅ ∅ (inr (JList [JObject demo_dict; JObject []; JNull])))).
  all: reflexivity.
Defined.
End Witnesses.
