(* ===== verification/Schema.v ===== *)
(** * The connection payload schema: types and round trip

    The upstream API documents the JSON object of a connection (spec,
    section 6): the keys [id], [name], [type], [revoked],
    [integrations] (an array of objects), [verified], [friend_sync],
    [show_activity], [visibility] and [two_way_link].  [encode] writes a
    connection's attributes back as such an object.  The theorems: every
    constructed connection is well typed ([conn_typed]: a dict payload
    holding its [id], integrations built from dicts), and constructing
    from the encoding gives back every attribute. *)

From stdpp Require Import base list option strings.
From Stdlib Require Import ZArith.
From S2P Require Import Prelude Py Base Integration Client Connection.

Open Scope py_scope.

Module Schema.
Import UserConnection Construction.

(** The attributes of [c] as the documented object. *)
Definition encode (c : UserConnection) : json :=
  JObject [("id", id c); ("name", name c); ("type", type c); ("revoked", revoked c);
           ("integrations", JList (map integration_payload (integrations c)));
           ("verified", verified c); ("friend_sync", friend_sync c);
           ("show_activity", show_activity c); ("visibility", visibility c);
           ("two_way_link", two_way_link c)].

(** [c] with its [_payload] replaced. *)
Definition with_payload (p : json) (c : UserConnection) : UserConnection :=
  {| _payload := p; id := id c; name := name c; type := type c; revoked := revoked c;
     integrations := integrations c; verified := verified c;
     friend_sync := friend_sync c; show_activity := show_activity c;
     visibility := visibility c; two_way_link := two_way_link c |}.

(** The integrations of [c] are built from dicts. *)
Definition integrations_typed (c : UserConnection) : bool :=
  forallb (fun i => is_dict (integration_payload i)) (integrations c).

(** The type of a constructed connection: its payload is a dict whose
    [id] is the connection's, and its integrations are built from dicts. *)
Definition conn_typed (c : UserConnection) : bool :=
  match _payload c with
  | JObject d => bool_decide (dict_lookup "id" d = Some (id c)) && integrations_typed c
  | _ => false
  end.

(** ** Helper lemmas *)

Lemma mapM_Integration_init_typed l ints :
  mapM Integration_init l = inr ints ->
  forallb (fun i => is_dict (integration_payload i)) ints = true.
Proof.
  intros H%mapM_inr_Forall2. induction H as [|v i l ints Hv _ IH]; [done|].
  cbn [forallb]. rewrite IH. destruct v; by simplify_eq/=.
Qed.

Lemma integrations_typed_payloads c :
  integrations_typed c = true ->
  mapM Integration_init (map integration_payload (integrations c)) = inr (integrations c).
Proof.
  unfold integrations_typed. rewrite forallb_forall. intros H.
  rewrite mapM_Integration_init_dicts.
  - f_equal. clear H. induction (integrations c) as [|[p] ints IH]; [done|].
    simpl. by rewrite IH.
  - apply Forall_forall. intros v (i & -> & Hi)%list_elem_of_fmap. apply H.
    by apply list_elem_of_In.
Qed.

(** ** Theorems *)

(** C24. Every connection [UserConnection(payload)] constructs is well
    typed: its payload is a dict whose [id] is the connection's [id], and
    every integration is built from a dict. *)
Theorem init_typed p c : __init__ p = inr c -> conn_typed c = true.
Proof.
  intros (d & i & ints & -> & Hi & Hints & ->)%init_inr_inv.
  unfold conn_typed, integrations_typed. simpl. rewrite bool_decide_eq_true_2 by done.
  simpl. rewrite get_integrations_dict in Hints.
  apply sbind_inr_iff in Hints as (items & _ & Hints).
  by apply mapM_Integration_init_typed in Hints.
Qed.

(** C25. Round trip: a connection whose integrations are built from
    dicts is constructed back from its documented encoding, every
    attribute equal and the encoding as its payload. *)
Theorem init_encode c :
  integrations_typed c = true -> __init__ (encode c) = inr (with_payload (encode c) c).
Proof.
  intros Hc. unfold __init__, encode, __get_integrations. simpl.
  by rewrite integrations_typed_payloads.
Qed.

(** * Witnesses *)

Lemma init_encode_witness :
  __init__ (encode Witnesses.demo_conn) =
    inr (with_payload (encode Witnesses.demo_conn) Witnesses.demo_conn).
Proof. apply init_encode. reflexivity. Defined.

Lemma init_typed_witness : conn_typed Witnesses.demo_conn = true.
Proof. apply (init_typed (JObject Witnesses.demo_dict)). reflexivity. Defined.

End Schema.
