(* ===== verification/Lifecycle.v ===== *)
(** * Sequences of operations on the client

    The fetch of [connections.py] is one operation among the others the
    rest of the library performs on the client (logging a user in,
    caching a [User], the server's answers changing).  Those others are
    not code of [src/]: they are an environment relation [env_step], and
    the theorems assume of it only what they need (a rely condition).
    [step] is the labelled transition relation, [steps] its sequences
    with their traces.  The theorems: along any sequence, by induction
    on [steps], the request log grows by exactly one request to the
    route per fetch of the trace; a second fetch with the same answer
    changes no object. *)

From stdpp Require Import base list option gmap strings.
From Stdlib Require Import ZArith.
From S2P Require Import Prelude Py Base Integration Client Connection.

Open Scope py_scope.

Module Lifecycle.
Import UserConnection Construction Fetch.

Inductive event := EvFetch (cache : bool) | EvEnv.

Definition is_fetch (e : event) : bool :=
  match e with EvFetch _ => true | EvEnv => false end.

Section Steps.
Variable env_step : conn_client -> conn_client -> Prop.

Inductive step : conn_client -> event -> conn_client -> Prop :=
| step_fetch cache s : step s (EvFetch cache) (fetch_from_api cache s).1
| step_env s s' : env_step s s' -> step s EvEnv s'.

Inductive steps : conn_client -> list event -> conn_client -> Prop :=
| steps_nil s : steps s [] s
| steps_cons s e s1 tr s2 : step s e s1 -> steps s1 tr s2 -> steps s (e :: tr) s2.

End Steps.

(** * Helper lemmas *)

Lemma fetch_keeps_respond cache s :
  respond (fetch_from_api cache s).1 = respond s.
Proof.
  rewrite fetch_run. destruct (fetch_outcome s) as [|cs]; [done|].
  destruct cache; [|done]. cbn [fst].
  by destruct (refresh_effect_frame cs (log_request route s)) as (_ & _ & _ & -> & _).
Qed.

Lemma refresh_effect_log cs r s :
  refresh_effect cs (log_request r s) = log_request r (refresh_effect cs s).
Proof.
  unfold refresh_effect. simpl. destruct (user_id s ≫= _) as [l|]; [|done].
  by destruct (heap s !! l) as [[]|].
Qed.

(** A second refresh with the same list changes no object. *)
Lemma refresh_effect_idem cs s :
  heap (refresh_effect cs (refresh_effect cs s)) = heap (refresh_effect cs s).
Proof.
  destruct (refresh_effect_frame cs s) as (Hc & Hu & _).
  unfold refresh_effect at 1. rewrite Hc, Hu.
  unfold refresh_effect. destruct (user_id s ≫= _) as [l|]; [|done].
  destruct (heap s !! l) as [[p old|]|] eqn:Hl; simpl; rewrite ?Hl; try done.
  by rewrite lookup_insert_eq, insert_insert_eq.
Qed.

(** * Theorems *)

(** C21. Along any sequence whose environment steps issue no request,
    the request log grows by one [/users/@me/connections] per fetch, in
    order. *)
Theorem steps_requests (env_step : conn_client -> conn_client -> Prop) s tr s' :
  (forall s1 s2, env_step s1 s2 -> requests s2 = requests s1) ->
  steps env_step s tr s' ->
  requests s' = requests s ++ replicate (length (filter is_fetch tr)) "/users/@me/connections".
Proof.
  intros Henv Hs. induction Hs as [s|s e s1 tr s2 Hst _ IH]; [by rewrite app_nil_r|].
  rewrite IH. destruct Hst as [cache s|s s1' Henv1]; simpl.
  - by rewrite fetch_one_request, <-app_assoc.
  - by rewrite (Henv _ _ Henv1).
Qed.

(** C22. Fetching twice with the same server answer leaves the objects as
    one fetch does: the refresh is idempotent. *)
Theorem fetch_idempotent cache s :
  heap (fetch_from_api cache (fetch_from_api cache s).1).1 = heap (fetch_from_api cache s).1.
Proof.
  assert (Ho : fetch_outcome (fetch_from_api cache s).1 = fetch_outcome s).
  { unfold fetch_outcome. by rewrite fetch_keeps_respond. }
  rewrite (fetch_run cache (fetch_from_api cache s).1), Ho, fetch_run.
  destruct (fetch_outcome s) as [|cs]; [done|]. destruct cache; [|done]. cbn [fst].
  rewrite refresh_effect_log. cbn [heap log_request]. apply refresh_effect_idem.
Qed.

(** * Witnesses: a run of fetch, login, fetch from a client with a cache hit *)

Definition login (u : Z) (s : conn_client) : conn_client :=
  mk_client (heap s) (users_cache s) (Some u) (respond s) (requests s).

Definition login_env (s s' : conn_client) : Prop := exists u, s' = login u s.

Definition demo_trace : list event := [EvFetch true; EvEnv; EvFetch false].

Definition demo_final : conn_client :=
  (fetch_from_api false (login 8%Z (fetch_from_api true Witnesses.demo_hit).1)).1.

Lemma demo_run : steps login_env Witnesses.demo_hit demo_trace demo_final.
Proof.
  eapply steps_cons; [apply step_fetch|].
  eapply steps_cons; [apply step_env; by exists 8%Z|].
  eapply steps_cons; [apply step_fetch|]. apply steps_nil.
Qed.

Lemma steps_requests_witness :
  requests demo_final = requests Witnesses.demo_hit ++
    replicate (length (filter is_fetch demo_trace)) "/users/@me/connections".
Proof.
  apply (steps_requests login_env).
  - by intros s1 s2 [u ->].
  - exact demo_run.
Defined.
End Lifecycle.
