(* ===== verification/System.v ===== *)
(** * The whole client: fetches among the other operations on the cache

    The operations of the rest of the library on the client are code of
    the repository outside [src/], modelled from the spec: a session logs
    a user in ([Lifecycle.login]) or out ([logout]); a [User] constructed
    from a payload enters the process-wide cache under its id, as a new
    object ([cache_user], spec sections 3 and 6); the server's answers
    change ([set_answer]).  [sys_step] runs one operation, fetches
    included, and [sys_run] a sequence of them: the system is executable.

    The abstract system ([abs_state], [abs_step]) is the one the spec
    describes: a map from user ids to [User] values, with no heap and no
    references, in which a fetch is [Fetch.fetch_contract].  The
    theorems: from a client satisfying [sys_inv] (cached references
    allocated, no object shared by two ids; every operation keeps it),
    every run is simulated step by step by the abstract system; the
    cache is never evicted and grows by at most one entry per [User]
    cached; a [User] cached and logged in receives the next fetched
    list. *)

From stdpp Require Import base list option gmap sets strings.
From Stdlib Require Import ZArith.
From S2P Require Import Prelude Py Base Integration Client Connection Lifecycle.

Open Scope py_scope.

Module System.
Import UserConnection Construction Fetch Lifecycle.

(** The session forgets its user: [user_id] is [None]. *)
Definition logout (s : conn_client) : conn_client :=
  mk_client (heap s) (users_cache s) None (respond s) (requests s).

(** A [User] built from [payload] is stored in the cache under [u]: a new
    object, whose [connections] is not set yet, replaces any previous
    entry for [u]. *)
Definition cache_user (u : Z) (payload : json) (s : conn_client) : conn_client :=
  let l := fresh (dom (heap s)) in
  mk_client (<[l := OUser payload None]> (heap s)) (<[u := l]> (users_cache s))
    (user_id s) (respond s) (requests s).

(** The server answers [r] from now on. *)
Definition set_answer (r : exn + json) (s : conn_client) : conn_client :=
  mk_client (heap s) (users_cache s) (user_id s) (fun _ => r) (requests s).

Inductive sys_event :=
| SFetch (cache : bool)
| SLogin (u : Z)
| SLogout
| SCacheUser (u : Z) (payload : json)
| SAnswer (r : exn + json).

Definition sys_step (e : sys_event) (s : conn_client) : conn_client :=
  match e with
  | SFetch cache => (fetch_from_api cache s).1
  | SLogin u => login u s
  | SLogout => logout s
  | SCacheUser u p => cache_user u p s
  | SAnswer r => set_answer r s
  end.

Fixpoint sys_run (tr : list sys_event) (s : conn_client) : conn_client :=
  match tr with
  | [] => s
  | e :: tr' => sys_run tr' (sys_step e s)
  end.

Definition is_cache_user (e : sys_event) : bool :=
  match e with SCacheUser _ _ => true | _ => false end.

(** The invariant of the client: cached references are allocated and no
    object is cached under two ids. *)
Definition sys_inv (s : conn_client) : Prop :=
  client_wf s /\ cache_injective s.

(** ** The abstract system of the spec *)

Record abs_state := mk_abs {
  a_users : gmap Z (obj (list UserConnection));
  a_uid : option Z;
  a_answer : exn + json;
  a_log : list string
}.

Definition abstract (s : conn_client) : abs_state :=
  mk_abs (users_view s) (user_id s) (respond s route) (requests s).

Definition abs_step (e : sys_event) (a : abs_state) : abs_state :=
  match e with
  | SFetch cache =>
      mk_abs (fetch_contract cache (a_uid a) (a_answer a) (a_users a)).1 (a_uid a)
        (a_answer a) (a_log a ++ [route])
  | SLogin u => mk_abs (a_users a) (Some u) (a_answer a) (a_log a)
  | SLogout => mk_abs (a_users a) None (a_answer a) (a_log a)
  | SCacheUser u p => mk_abs (<[u := OUser p None]> (a_users a)) (a_uid a) (a_answer a) (a_log a)
  | SAnswer r => mk_abs (a_users a) (a_uid a) r (a_log a)
  end.

Fixpoint abs_run (tr : list sys_event) (a : abs_state) : abs_state :=
  match tr with
  | [] => a
  | e :: tr' => abs_run tr' (abs_step e a)
  end.

(** * Lemmas *)

(** The fresh location is not cached. *)
Lemma fresh_not_cached (s : conn_client) u :
  client_wf s -> users_cache s !! u <> Some (fresh (dom (heap s))).
Proof.
  intros Hwf Hu. apply (is_fresh (dom (heap s))), elem_of_dom. exact (Hwf u _ Hu).
Qed.

Lemma cache_user_view u p s :
  client_wf s -> users_view (cache_user u p s) = <[u := OUser p None]> (users_view s).
Proof.
  intros Hwf. apply map_eq. intros u'. rewrite users_view_lookup. simpl.
  destruct (decide (u' = u)) as [->|Hne].
  - by rewrite !lookup_insert_eq; simpl; rewrite lookup_insert_eq.
  - rewrite !lookup_insert_ne, users_view_lookup by done.
    destruct (users_cache s !! u') as [l|] eqn:Hl; simpl; [|done].
    rewrite lookup_insert_ne; [done|]. intros <-. by apply (fresh_not_cached s u').
Qed.

Lemma cache_user_inv u p s : sys_inv s -> sys_inv (cache_user u p s).
Proof.
  intros (Hwf & Hinj). split.
  - intros u' l. simpl. rewrite lookup_insert_Some. intros [[<- <-]|[_ Hl]].
    + rewrite lookup_insert_eq. by eexists.
    + apply lookup_insert_is_Some'. right. exact (Hwf u' l Hl).
  - intros u1 u2 l. simpl. rewrite !lookup_insert_Some.
    intros [[<- <-]|[_ H1]] [[<- Hl]|[_ H2]]; try done.
    + by destruct (fresh_not_cached s u2 Hwf).
    + subst l. by destruct (fresh_not_cached s u1 Hwf).
    + by apply (Hinj u1 u2 l).
Qed.

(** A fetch keeps the invariant. *)
Lemma fetch_inv cache s : sys_inv s -> sys_inv (fetch_from_api cache s).1.
Proof.
  intros (Hwf & Hinj). rewrite fetch_run.
  destruct (fetch_outcome s) as [|cs] eqn:Hcs; [done|]. destruct cache; [|done].
  cbn [fst]. destruct (refresh_effect_frame cs (log_request route s)) as (Hc & _ & _ & _ & Hd).
  split.
  - by eapply client_wf_dom.
  - intros u1 u2 l. rewrite Hc. apply Hinj.
Qed.

Lemma sys_step_inv e s : sys_inv s -> sys_inv (sys_step e s).
Proof.
  destruct e; simpl; [apply fetch_inv|..|apply cache_user_inv|];
    intros (Hwf & Hinj); by split.
Qed.

(** One fetch is one abstract fetch. *)
Lemma fetch_abstract cache s :
  cache_injective s -> abstract (fetch_from_api cache s).1 = abs_step (SFetch cache) (abstract s).
Proof.
  intros Hinj. unfold abstract, abs_step. cbn [a_uid a_answer a_users a_log].
  rewrite fetch_run. unfold fetch_contract.
  change (let? p := respond s route in parse_connections p) with (fetch_outcome s).
  destruct (fetch_outcome s) as [e|cs]; [done|]. destruct cache; [|done]. cbn [fst].
  destruct (refresh_effect_frame cs (log_request route s)) as (_ & Hu & Hreq & Hresp & _).
  by rewrite Hu, Hreq, Hresp, refresh_effect_view.
Qed.

Lemma sys_step_abstract e s :
  sys_inv s -> abstract (sys_step e s) = abs_step e (abstract s).
Proof.
  intros (Hwf & Hinj). destruct e; simpl.
  - by apply fetch_abstract.
  - done.
  - done.
  - unfold abstract. by rewrite cache_user_view.
  - done.
Qed.

Lemma sys_step_cache e s :
  dom (users_cache s) ⊆ dom (users_cache (sys_step e s)) /\
  size (users_cache (sys_step e s)) <= size (users_cache s) + (if is_cache_user e then 1 else 0).
Proof.
  destruct e as [cache|u| |u p|r]; simpl; try (split; [set_solver|lia]).
  - rewrite fetch_run. destruct (fetch_outcome s) as [|cs]; [simpl; split; [set_solver|lia]|].
    destruct cache; [|simpl; split; [set_solver|lia]]. cbn [fst].
    destruct (refresh_effect_frame cs (log_request route s)) as (-> & _). simpl.
    split; [set_solver|lia].
  - rewrite dom_insert_L. split; [set_solver|].
    destruct (users_cache s !! u) eqn:Hu.
    + rewrite map_size_insert_Some by done. lia.
    + rewrite map_size_insert_None by done. lia.
Qed.

(** * Theorems *)

(** C26. Refinement: from a client satisfying the invariant, every run
    is simulated by the abstract system of the spec, in which the cache
    is a map from ids to [User] values and a fetch is its contract: the
    view of the cache, the current user, the server's answer and the
    request log agree after every sequence of operations. *)
Theorem sys_run_refines tr s :
  sys_inv s -> abstract (sys_run tr s) = abs_run tr (abstract s).
Proof.
  revert s. induction tr as [|e tr IH]; intros s Hs; [done|]. simpl.
  rewrite IH by (by apply sys_step_inv). by rewrite sys_step_abstract.
Qed.

(** C27. Bounds: no operation evicts an entry of the users cache, and
    the cache grows by at most one entry per [User] cached: fetches never
    add an entry. *)
Theorem sys_run_cache_bounds tr s :
  dom (users_cache s) ⊆ dom (users_cache (sys_run tr s)) /\
  size (users_cache (sys_run tr s)) <= size (users_cache s) + length (filter is_cache_user tr).
Proof.
  revert s. induction tr as [|e tr IH]; intros s; simpl; [split; [set_solver|lia]|].
  destruct (IH (sys_step e s)) as [Hd Hs]. destruct (sys_step_cache e s) as [Hd' Hs'].
  rewrite filter_cons. split; [set_solver|]. destruct (is_cache_user e); simpl in *; lia.
Qed.

(** C29. A [User] cached under [u], then [u] logged in: the next
    successful fetch with [cache=True] stores the fetched list in that
    [User], whatever the client held before. *)
Theorem cache_login_fetch u p s cs :
  sys_inv s -> fetch_outcome s = inr cs ->
  users_view (sys_run [SCacheUser u p; SLogin u; SFetch true] s) !! u = Some (OUser p (Some cs)).
Proof.
  intros Hs Hcs. unfold fetch_outcome in Hcs.
  change (users_view ?x) with (a_users (abstract x)). cbn [sys_run].
  rewrite !sys_step_abstract by (repeat apply sys_step_inv; done).
  unfold abs_step, fetch_contract. cbn [a_users a_uid a_answer abstract].
  rewrite Hcs. cbn [fst]. by rewrite lookup_alter_eq, lookup_insert_eq.
Qed.

(** * Witnesses: a user cached and logged in, fetches, a logout, an error *)

Definition demo_sys : list sys_event :=
  [SFetch true; SCacheUser 8%Z (JObject [("id", JStr "8")]); SLogin 8%Z; SFetch true;
   SLogout; SAnswer (inl (RequestError Unauthorized)); SFetch true].

Lemma demo_hit_inv : sys_inv Witnesses.demo_hit.
Proof.
  split.
  - intros u l. cbn. rewrite lookup_singleton_Some. intros [_ <-]. by eexists.
  - intros u1 u2 l. cbn. rewrite !lookup_singleton_Some. naive_solver.
Qed.

Lemma sys_run_refines_witness :
  abstract (sys_run demo_sys Witnesses.demo_hit) = abs_run demo_sys (abstract Witnesses.demo_hit).
Proof. apply sys_run_refines. exact demo_hit_inv. Defined.

Lemma cache_login_fetch_witness :
  users_view (sys_run [SCacheUser 8%Z (JObject [("id", JStr "8")]); SLogin 8%Z; SFetch true]
                Witnesses.demo_hit) !! 8%Z =
    Some (OUser (JObject [("id", JStr "8")]) (Some [Witnesses.demo_conn])).
Proof. apply cache_login_fetch; [exact demo_hit_inv|vm_compute; reflexivity]. Defined.

End System.
