(* ===== verification/Concurrency.v ===== *)
(** * Interleaved fetches on the shared users cache

    The spec (section 5) says the users cache is mutated without
    synchronisation.  Here [fetch_from_api] is split at its statements
    (the request of line 80, the lookup of line 83, the guarded
    assignment of lines 84-87, the return of line 89): a thread is a
    program counter, [thread_step] runs one statement, and [run] executes
    a schedule of thread steps and environment actions over the shared
    client.  Each statement is atomic, as the interpreter lock makes a
    single dict lookup or attribute assignment.

    The statements are [stmt_request], [stmt_lookup] and [stmt_assign].
    All threads share the one [user_id] of the client state; in Flask it
    belongs to each request, so the schedules model threads serving the
    same session.  [writes] logs the assignments a schedule performs, in
    order.

    The theorems: for any schedule, every object ends as the last
    assignment to it in the log made it; a [User] cached anew between
    the lookup and the assignment misses the update.  A lemma checks
    that a thread run alone is the atomic [fetch_from_api], and an
    example exhibits a schedule in which the cache ends with the answer
    of the older request. *)

From stdpp Require Import base list option gmap strings.
From Stdlib Require Import ZArith.
From S2P Require Import Prelude Py Base Integration Client Connection Lifecycle System.

Open Scope py_scope.

Module Threads.
Import UserConnection Construction Fetch.

(** Where a thread running [fetch_from_api(cache)] stands. *)
Inductive pc :=
| AtRequest
| AtLookup (cs : list UserConnection)
| AtAssign (cs : list UserConnection) (user : pyref)
| Returned (r : exn + list UserConnection).

Record thread := mk_thread { cache_flag : bool; t_pc : pc }.

(** Line 80, [connections = super().fetch_from_api()], with the test of
    line 82: the next statement, or the return when the request raised or
    [cache] is false. *)
Definition stmt_request (c : bool) (s : conn_client) : pc * conn_client :=
  let '(s', r) := @DiscordModelsBase.fetch_from_api conn_client UserConnection _ _ _ s in
  (match r with
   | inl e => Returned (inl e)
   | inr cs => if c then AtLookup cs else Returned (inr cs)
   end, s').

(** Line 83, [user = current_app.discord.users_cache.get(current_app.discord.user_id)]. *)
Definition stmt_lookup (cs : list UserConnection) (s : conn_client) : pc * conn_client :=
  let '(s', r) := users_cache_get s in
  (match r with
   | inl e => Returned (inl e)
   | inr user => AtAssign cs user
   end, s').

(** Lines 84-87, [try: user.connections = connections / except
    AttributeError: pass], and the return of line 89. *)
Definition stmt_assign (cs : list UserConnection) (user : pyref) (s : conn_client) :
    pc * conn_client :=
  let '(s', r) := try_except is_attribute_error (setattr_connections user cs)
                    (fun _ => sret tt) s in
  (match r with
   | inl e => Returned (inl e)
   | inr _ => Returned (inr cs)
   end, s').

(** One statement of [fetch_from_api]; [None] once the thread returned. *)
Definition thread_step (t : thread) (s : conn_client) : option (thread * conn_client) :=
  let c := cache_flag t in
  let next := fun '(p, s') => Some (mk_thread c p, s') in
  match t_pc t with
  | AtRequest => next (stmt_request c s)
  | AtLookup cs => next (stmt_lookup cs s)
  | AtAssign cs user => next (stmt_assign cs user s)
  | Returned _ => None
  end.

(** A schedule: steps of thread [i], or an action of the rest of the
    program on the client (the server's answers changing, logins). *)
Inductive action :=
| Run (i : nat)
| Env (f : conn_client -> conn_client).

Fixpoint run (sched : list action) (ts : list thread) (s : conn_client) :
    list thread * conn_client :=
  match sched with
  | [] => (ts, s)
  | Env f :: sched' => run sched' ts (f s)
  | Run i :: sched' =>
      match ts !! i with
      | Some t =>
          match thread_step t s with
          | Some (t', s') => run sched' (<[i := t']> ts) s'
          | None => run sched' ts s
          end
      | None => run sched' ts s
      end
  end.

(** What line 83 reads in state [s]. *)
Definition current_user_ref (s : conn_client) : pyref :=
  match user_id s ≫= fun u => users_cache s !! u with
  | Some l => PRef l
  | None => PNone
  end.

Definition env_keeps_heap (sched : list action) : Prop :=
  Forall (fun a => match a with
                   | Env f => forall s, heap (f s) = heap s
                   | Run _ => True
                   end) sched.

(** The assignment a step of [t] performs, if any: line 85 on the
    object [l] the lookup returned. *)
Definition step_write (t : thread) : list (loc * list UserConnection) :=
  match t_pc t with
  | AtAssign cs (PRef l) => [(l, cs)]
  | _ => []
  end.

(** The log of the assignments a schedule performs, in order. *)
Fixpoint writes (sched : list action) (ts : list thread) (s : conn_client) :
    list (loc * list UserConnection) :=
  match sched with
  | [] => []
  | Run i :: sched' =>
      match ts !! i with
      | Some t =>
          match thread_step t s with
          | Some (t', s') => step_write t ++ writes sched' (<[i := t']> ts) s'
          | None => writes sched' ts s
          end
      | None => writes sched' ts s
      end
  | Env f :: sched' => writes sched' ts (f s)
  end.

(** The object at [l] after the assignments [ws], in order. *)
Definition apply_writes (l : loc) (ws : list (loc * list UserConnection))
    (o : option (obj (list UserConnection))) : option (obj (list UserConnection)) :=
  foldl (fun o w => if decide (w.1 = l) then assign_connections w.2 <$> o else o) o ws.

(** * Lemmas on single statements *)

Lemma thread_step_request c s :
  thread_step (mk_thread c AtRequest) s =
    Some (mk_thread c (match fetch_outcome s with
                       | inl e => Returned (inl e)
                       | inr cs => if c then AtLookup cs else Returned (inr cs)
                       end), log_request route s).
Proof. unfold thread_step, stmt_request. cbn [t_pc cache_flag]. by rewrite base_fetch_run. Qed.

Lemma thread_step_lookup c cs s :
  thread_step (mk_thread c (AtLookup cs)) s =
    Some (mk_thread c (AtAssign cs (current_user_ref s)), s).
Proof. unfold thread_step, stmt_lookup. cbn [t_pc cache_flag]. by rewrite users_cache_get_run. Qed.

(** The guarded assignment never raises: only [AttributeError] can come
    out of the assignment, and it is caught. *)
Lemma guarded_assign_inr r (cs : list UserConnection) (s : conn_client) :
  (try_except is_attribute_error (setattr_connections r cs) (fun _ => sret tt) s).2 = inr tt.
Proof.
  rewrite try_except_pass. unfold setattr_connections.
  destruct r as [|l]; [done|]. by destruct (heap s !! l) as [[]|].
Qed.

Lemma thread_step_assign c (cs : list UserConnection) r (s : conn_client) :
  thread_step (mk_thread c (AtAssign cs r)) s =
    Some (mk_thread c (Returned (inr cs)),
          (try_except is_attribute_error (setattr_connections r cs) (fun _ => sret tt) s).1).
Proof.
  unfold thread_step, stmt_assign. cbn [t_pc cache_flag].
  pose proof (guarded_assign_inr r cs s) as Hr.
  destruct (try_except _ _ _ s) as [s' r']. simpl in Hr. by subst.
Qed.

(** One step of thread [i] of a schedule. *)
Lemma run_step i sched ts s t :
  ts !! i = Some t ->
  run (Run i :: sched) ts s =
    match thread_step t s with
    | Some (t', s') => run sched (<[i := t']> ts) s'
    | None => run sched ts s
    end.
Proof. intros Hi. simpl. by rewrite Hi. Qed.


Lemma run_env f sched ts s : run (Env f :: sched) ts s = run sched ts (f s).
Proof. reflexivity. Qed.

(** The guarded assignment changes at most the object it targets. *)
Lemma guarded_assign_heap r (cs : list UserConnection) (s : conn_client) l :
  heap (try_except is_attribute_error (setattr_connections r cs) (fun _ => sret tt) s).1 !! l =
    match r with
    | PRef l0 => if decide (l0 = l) then assign_connections cs <$> heap s !! l else heap s !! l
    | PNone => heap s !! l
    end.
Proof.
  rewrite try_except_pass. unfold setattr_connections.
  destruct r as [|l0]; [done|].
  destruct (heap s !! l0) as [[p old|c]|] eqn:Hl0; simpl;
    [rewrite lookup_insert|..]; case_decide; subst; by rewrite ?Hl0.
Qed.

Lemma thread_step_heap t s t' s' l :
  thread_step t s = Some (t', s') -> heap s' !! l = apply_writes l (step_write t) (heap s !! l).
Proof.
  destruct t as [c [|cs0|cs0 r|r]];
    [rewrite thread_step_request|rewrite thread_step_lookup|rewrite thread_step_assign|
     by intros [=]]; intros [= _ <-]; [done|done|].
  rewrite guarded_assign_heap. unfold step_write, apply_writes. simpl.
  by destruct r.
Qed.

Lemma run_heap sched ts s l :
  env_keeps_heap sched -> heap (run sched ts s).2 !! l = apply_writes l (writes sched ts s) (heap s !! l).
Proof.
  revert ts s. induction sched as [|[j|f] sched IH]; intros ts s Henv; simpl; [done| |].
  - inversion Henv as [|? ? _ Henv']; subst.
    destruct (ts !! j) as [tj|]; [|by apply IH].
    destruct (thread_step tj s) as [[tj' s']|] eqn:Hstep; [|by apply IH].
    rewrite IH by done. unfold apply_writes at 2. rewrite foldl_app.
    by rewrite (thread_step_heap _ _ _ _ _ Hstep).
  - inversion Henv as [|? ? Hf Henv']; subst. rewrite IH by done. by rewrite Hf.
Qed.

(** Only the last assignment to an object counts. *)
Lemma apply_writes_last l ws o :
  apply_writes l ws o =
    match last (filter (fun w => w.1 = l) ws) with
    | Some w => assign_connections w.2 <$> o
    | None => o
    end.
Proof.
  induction ws as [|w ws IH] using rev_ind; [done|].
  unfold apply_writes in *. rewrite foldl_app, IH, filter_app. simpl.
  case_decide.
  - rewrite filter_cons_True, filter_nil, last_snoc by done.
    destruct (last _) as [w'|]; [|done]. by destruct o as [[]|].
  - by rewrite filter_cons_False, filter_nil, app_nil_r by done.
Qed.

(** * Theorems *)

(** A thread that runs alone through its three statements ends
    exactly as the atomic [fetch_from_api]: same client state, and it
    returns the value the fetch returns. *)
Theorem thread_alone_is_fetch cache s :
  run [Run 0; Run 0; Run 0] [mk_thread cache AtRequest] s =
    ([mk_thread cache (Returned (fetch_from_api cache s).2)], (fetch_from_api cache s).1).
Proof.
  rewrite fetch_run. erewrite run_step by reflexivity. rewrite thread_step_request.
  erewrite run_step by reflexivity.
  destruct (fetch_outcome s) as [e|cs]; [done|]. destruct cache; [|done].
  rewrite thread_step_lookup. erewrite run_step by reflexivity.
  rewrite thread_step_assign. unfold current_user_ref. by rewrite guarded_assign_run.
Qed.

(** C23. Last writer wins, for any schedule whose environment actions
    leave the objects alone: every object ends as its last assignment
    in the schedule made it, that is with its payload and the list of
    the last thread that assigned it, whichever request was issued
    first; an object no thread assigned is unchanged. *)
Theorem last_writer_wins sched ts s l :
  env_keeps_heap sched ->
  heap (run sched ts s).2 !! l =
    match last (filter (fun w => w.1 = l) (writes sched ts s)) with
    | Some w => assign_connections w.2 <$> heap s !! l
    | None => heap s !! l
    end.
Proof. intros Henv. by rewrite run_heap, apply_writes_last. Qed.

(** C28. A [User] cached anew for the current user between the lookup
    of line 83 and the assignment of line 85 misses the update: the
    assignment goes to the object the lookup returned, which the cache no
    longer holds, and the cached [User] keeps no connections. *)
Theorem recached_user_misses_update c cs u l p0 old p s :
  user_id s = Some u -> users_cache s !! u = Some l -> heap s !! l = Some (OUser p0 old) ->
  users_view (run [Run 0; Env (System.cache_user u p); Run 0] [mk_thread c (AtLookup cs)] s).2 !! u =
    Some (OUser p None) /\
  heap (run [Run 0; Env (System.cache_user u p); Run 0] [mk_thread c (AtLookup cs)] s).2 !! l =
    Some (OUser p0 (Some cs)).
Proof.
  intros Hu Hl Ho.
  assert (Hfresh : l <> fresh (dom (heap s))).
  { intros ->. apply (is_fresh (dom (heap s))), elem_of_dom. by rewrite Ho. }
  erewrite run_step by reflexivity. rewrite thread_step_lookup, run_env.
  erewrite run_step by reflexivity. rewrite thread_step_assign. cbn [run snd].
  unfold current_user_ref. rewrite Hu. cbn [mbind option_bind]. rewrite Hl.
  rewrite try_except_pass. unfold setattr_connections, System.cache_user. cbn [heap].
  rewrite lookup_insert_ne by done. rewrite Ho.
  cbn [set_connections_obj set_heap heap users_cache fst]. split.
  - rewrite users_view_lookup. cbn [set_heap heap users_cache].
    rewrite lookup_insert_eq. cbn [mbind option_bind].
    rewrite lookup_insert_ne by done. by rewrite lookup_insert_eq.
  - by rewrite lookup_insert_eq.
Qed.

(** * The race of two requests for the same user *)

Definition newer_dict : list (string * json) := [("id", JStr "2")].

Definition race_threads : list thread := [mk_thread true AtRequest; mk_thread true AtRequest].

(** Thread 0 requests; the answer changes; thread 1 requests, looks the
    user up and assigns; thread 0 looks up and assigns last. *)
Definition race_schedule : list action :=
  [Run 0; Env (System.set_answer (inr (JList [JObject newer_dict]))); Run 1; Run 1; Run 1;
   Run 0; Run 0].

(** Without synchronisation the cache can end with the older
    answer: thread 1's request is the later one and it returns the newer
    list, yet the cached [User] holds thread 0's older list. *)
Example stale_answer_wins :
  requests (run race_schedule race_threads Witnesses.demo_hit).2 =
    ["/users/@me/connections"; "/users/@me/connections"] /\
  (run race_schedule race_threads Witnesses.demo_hit).1 !! 1 =
    Some (mk_thread true (Returned (inr [connection_of_dict newer_dict (JStr "2") []]))) /\
  heap (run race_schedule race_threads Witnesses.demo_hit).2 !! 1%positive =
    Some (OUser (JObject [("id", JStr "7")]) (Some [Witnesses.demo_conn])).
Proof. vm_compute. split_and!; reflexivity. Qed.

(** * Witnesses *)

Lemma last_writer_wins_witness :
  heap (run race_schedule race_threads Witnesses.demo_hit).2 !! 1%positive =
    match last (filter (fun w => w.1 = 1%positive)
                  (writes race_schedule race_threads Witnesses.demo_hit)) with
    | Some w => assign_connections w.2 <$> heap Witnesses.demo_hit !! 1%positive
    | None => heap Witnesses.demo_hit !! 1%positive
    end.
Proof.
  apply last_writer_wins. unfold env_keeps_heap. repeat constructor.
Defined.

Lemma recached_user_misses_update_witness :
  users_view (run [Run 0; Env (System.cache_user 7%Z (JObject [("id", JStr "7")])); Run 0]
                [mk_thread true (AtLookup [Witnesses.demo_conn])] Witnesses.demo_hit).2 !! 7%Z =
    Some (OUser (JObject [("id", JStr "7")]) None) /\
  heap (run [Run 0; Env (System.cache_user 7%Z (JObject [("id", JStr "7")])); Run 0]
          [mk_thread true (AtLookup [Witnesses.demo_conn])] Witnesses.demo_hit).2 !! 1%positive =
    Some (OUser (JObject [("id", JStr "7")]) (Some [Witnesses.demo_conn])).
Proof. apply recached_user_misses_update with (old := None); reflexivity. Defined.

End Threads.
